(** * hv: the per-core virtualization object [hv::vcpu]

    A shallow embedding of [vcpu.cpp] / [vcpu.h]: the bring-up sequence
    [virtualize] (feature gate, VMXON, VMCS pointer, field programming,
    launch), the vm-exit dispatcher and the host-interrupt bridge.

    The processor is a record of the registers the code touches.  A
    function of the class is a computation over that record which also
    yields, in program order, every privileged instruction and external
    call it issues, each paired with the machine state it was issued in:
    ordering properties ("vmxoff is issued before the function returns")
    and issue-time properties ("the region is stamped before VMXON") are
    then statements about the code as written. *)

From Stdlib Require Import ZArith List Bool String Lia.
Import ListNotations.
Local Open Scope Z_scope.

(** ** Machine words and bit-fields *)

(** [size_t] / [uint64_t] arithmetic wraps modulo 2^64. *)
Definition wrap64 (z : Z) : Z := z mod 2 ^ 64.

(** [static_cast<uint32_t>]. *)
Definition wrap32 (z : Z) : Z := z mod 2 ^ 32.

(** A one-bit bit-field of a register union, read through its raw [flags]. *)
Definition flag (flags : Z) (bit : N) : bool := Z.testbit flags (Z.of_N bit).

(** [reg.field = 1] for a one-bit bit-field. *)
Definition set_flag (flags : Z) (bit : N) : Z := Z.setbit flags (Z.of_N bit).

(** ** Identifiers declared by <ia32.hpp>

    The header is not part of the repository.  Names that only identify
    something (a VMCS field, an MSR) become constructors; numeric values
    and bit layouts the code computes with are parameters, see [ia32]. *)

(** The model-specific registers read by [vcpu.cpp]. *)
Inductive msr_index : Set :=
| IA32_FEATURE_CONTROL
| IA32_VMX_BASIC
| IA32_VMX_CR0_FIXED0 | IA32_VMX_CR0_FIXED1
| IA32_VMX_CR4_FIXED0 | IA32_VMX_CR4_FIXED1
| IA32_FS_BASE | IA32_GS_BASE
| IA32_DEBUGCTL
| IA32_SYSENTER_CS | IA32_SYSENTER_ESP | IA32_SYSENTER_EIP.

(** The VMCS fields named by [vcpu.cpp] (and the five control words that
    the [write_ctrl_*] helpers of util/vmx.h program). *)
Inductive vmcs_field : Set :=
(* execution, exit and entry controls *)
| VMCS_CTRL_PIN_BASED_VM_EXECUTION_CONTROLS
| VMCS_CTRL_PROCESSOR_BASED_VM_EXECUTION_CONTROLS
| VMCS_CTRL_SECONDARY_PROCESSOR_BASED_VM_EXECUTION_CONTROLS
| VMCS_CTRL_VMEXIT_CONTROLS
| VMCS_CTRL_VMENTRY_CONTROLS
| VMCS_CTRL_EXCEPTION_BITMAP
| VMCS_CTRL_PAGEFAULT_ERROR_CODE_MASK
| VMCS_CTRL_PAGEFAULT_ERROR_CODE_MATCH
| VMCS_CTRL_CR4_GUEST_HOST_MASK
| VMCS_CTRL_CR4_READ_SHADOW
| VMCS_CTRL_CR0_GUEST_HOST_MASK
| VMCS_CTRL_CR0_READ_SHADOW
| VMCS_CTRL_CR3_TARGET_COUNT
| VMCS_CTRL_CR3_TARGET_VALUE_0
| VMCS_CTRL_CR3_TARGET_VALUE_1
| VMCS_CTRL_CR3_TARGET_VALUE_2
| VMCS_CTRL_CR3_TARGET_VALUE_3
| VMCS_CTRL_MSR_BITMAP_ADDRESS
| VMCS_CTRL_VMEXIT_MSR_STORE_COUNT
| VMCS_CTRL_VMEXIT_MSR_STORE_ADDRESS
| VMCS_CTRL_VMEXIT_MSR_LOAD_COUNT
| VMCS_CTRL_VMEXIT_MSR_LOAD_ADDRESS
| VMCS_CTRL_VMENTRY_MSR_LOAD_COUNT
| VMCS_CTRL_VMENTRY_MSR_LOAD_ADDRESS
| VMCS_CTRL_VMENTRY_INTERRUPTION_INFORMATION_FIELD
| VMCS_CTRL_VMENTRY_EXCEPTION_ERROR_CODE
| VMCS_CTRL_VMENTRY_INSTRUCTION_LENGTH
(* read-only data *)
| VMCS_VM_INSTRUCTION_ERROR
| VMCS_EXIT_REASON
(* host state *)
| VMCS_HOST_CR0 | VMCS_HOST_CR3 | VMCS_HOST_CR4
| VMCS_HOST_RSP | VMCS_HOST_RIP
| VMCS_HOST_CS_SELECTOR | VMCS_HOST_SS_SELECTOR | VMCS_HOST_DS_SELECTOR
| VMCS_HOST_ES_SELECTOR | VMCS_HOST_FS_SELECTOR | VMCS_HOST_GS_SELECTOR
| VMCS_HOST_TR_SELECTOR
| VMCS_HOST_FS_BASE | VMCS_HOST_GS_BASE | VMCS_HOST_TR_BASE
| VMCS_HOST_GDTR_BASE | VMCS_HOST_IDTR_BASE
| VMCS_HOST_SYSENTER_CS | VMCS_HOST_SYSENTER_ESP | VMCS_HOST_SYSENTER_EIP
(* guest state *)
| VMCS_GUEST_CR0 | VMCS_GUEST_CR3 | VMCS_GUEST_CR4
| VMCS_GUEST_DR7
| VMCS_GUEST_RSP | VMCS_GUEST_RIP | VMCS_GUEST_RFLAGS
| VMCS_GUEST_CS_SELECTOR | VMCS_GUEST_SS_SELECTOR | VMCS_GUEST_DS_SELECTOR
| VMCS_GUEST_ES_SELECTOR | VMCS_GUEST_FS_SELECTOR | VMCS_GUEST_GS_SELECTOR
| VMCS_GUEST_TR_SELECTOR | VMCS_GUEST_LDTR_SELECTOR
| VMCS_GUEST_CS_BASE | VMCS_GUEST_SS_BASE | VMCS_GUEST_DS_BASE
| VMCS_GUEST_ES_BASE | VMCS_GUEST_FS_BASE | VMCS_GUEST_GS_BASE
| VMCS_GUEST_TR_BASE | VMCS_GUEST_LDTR_BASE
| VMCS_GUEST_CS_LIMIT | VMCS_GUEST_SS_LIMIT | VMCS_GUEST_DS_LIMIT
| VMCS_GUEST_ES_LIMIT | VMCS_GUEST_FS_LIMIT | VMCS_GUEST_GS_LIMIT
| VMCS_GUEST_TR_LIMIT | VMCS_GUEST_LDTR_LIMIT
| VMCS_GUEST_CS_ACCESS_RIGHTS | VMCS_GUEST_SS_ACCESS_RIGHTS
| VMCS_GUEST_DS_ACCESS_RIGHTS | VMCS_GUEST_ES_ACCESS_RIGHTS
| VMCS_GUEST_FS_ACCESS_RIGHTS | VMCS_GUEST_GS_ACCESS_RIGHTS
| VMCS_GUEST_TR_ACCESS_RIGHTS | VMCS_GUEST_LDTR_ACCESS_RIGHTS
| VMCS_GUEST_GDTR_BASE | VMCS_GUEST_IDTR_BASE
| VMCS_GUEST_GDTR_LIMIT | VMCS_GUEST_IDTR_LIMIT
| VMCS_GUEST_DEBUGCTL
| VMCS_GUEST_SYSENTER_CS | VMCS_GUEST_SYSENTER_ESP | VMCS_GUEST_SYSENTER_EIP
| VMCS_GUEST_ACTIVITY_STATE
| VMCS_GUEST_INTERRUPTIBILITY_STATE
| VMCS_GUEST_PENDING_DEBUG_EXCEPTIONS
| VMCS_GUEST_VMCS_LINK_POINTER.

Definition vmcs_field_eq_dec (f g : vmcs_field) : {f = g} + {f <> g}.
Proof. decide equality. Defined.

(** [segment_selector], brace-initialised in vcpu.h in declaration order. *)
Record segment_selector : Set := {
  request_privilege_level : Z;
  table : Z;
  index : Z
}.

(** What [vcpu.cpp] takes from <ia32.hpp> as numbers: flag masks, the
    positions of the one-bit bit-fields it reads or sets, the accessors
    of the wider bit-fields, and the enumerators it switches on. *)
Class ia32 : Type := {
  (* control-register flag *)
  CR4_VMX_ENABLE_FLAG : Z;
  (* cpuid_eax_01::cpuid_feature_information_ecx *)
  virtual_machine_extensions : N;
  (* ia32_feature_control_register *)
  lock_bit : N;
  enable_vmx_outside_smx : N;
  (* ia32_vmx_basic_register *)
  vmcs_revision_id : Z -> Z;
  (* ia32_vmx_pinbased_ctls_register *)
  virtual_nmi : N;
  nmi_exiting : N;
  (* ia32_vmx_procbased_ctls_register *)
  cr3_load_exiting : N;
  cr3_store_exiting : N;
  use_msr_bitmaps : N;
  activate_secondary_controls : N;
  nmi_window_exiting : N;
  (* ia32_vmx_procbased_ctls2_register *)
  enable_rdtscp : N;
  enable_invpcid : N;
  enable_xsaves : N;
  enable_user_wait_pause : N;
  procbased2_conceal_vmx_from_pt : N;
  (* ia32_vmx_exit_ctls_register *)
  save_debug_controls : N;
  host_address_space_size : N;
  exit_conceal_vmx_from_pt : N;
  (* ia32_vmx_entry_ctls_register *)
  load_debug_controls : N;
  ia32e_mode_guest : N;
  entry_conceal_vmx_from_pt : N;
  (* vmx_vmexit_reason *)
  basic_exit_reason : Z -> Z;
  VMX_EXIT_REASON_MOV_CR : Z;
  VMX_EXIT_REASON_EXECUTE_CPUID : Z;
  VMX_EXIT_REASON_EXECUTE_RDMSR : Z;
  VMX_EXIT_REASON_EXECUTE_WRMSR : Z;
  VMX_EXIT_REASON_EXCEPTION_OR_NMI : Z;
  VMX_EXIT_REASON_NMI_WINDOW : Z;
  (* exception_vector *)
  nmi : Z;
  (* remaining enumerators and the raw view of a selector *)
  vmx_active : Z;
  invept_all_context : Z;
  selector_flags : segment_selector -> Z
}.

(** ** vcpu.h *)

(** selectors for the host GDT *)
Definition host_cs_selector : segment_selector :=
  {| request_privilege_level := 0; table := 0; index := 1 |}.
Definition host_tr_selector : segment_selector :=
  {| request_privilege_level := 0; table := 0; index := 2 |}.

(** number of available descriptor slots in the host GDT *)
Definition host_gdt_descriptor_count : Z := 4.

(** number of available descriptor slots in the host IDT *)
Definition host_idt_descriptor_count : Z := 256.

(** size of the host stack for handling vm-exits *)
Definition host_stack_size : Z := 0x6000.

(** The software-written head of the 4 KiB vmxon region. *)
Record vmxon : Set := {
  vmxon_revision_id : Z;
  must_be_zero : Z
}.

(** The software-written head of the 4 KiB vmcs region. *)
Record vmcs : Set := {
  revision_id : Z;
  shadow_vmcs_indicator : Z
}.

(** The data members of [class vcpu].  Regions whose content the code
    sets are kept by value; [host_stack_] is only ever used through its
    address.  The [addr_*] fields are the virtual addresses [&member]. *)
Record vcpu : Type := {
  vmxon_ : vmxon;
  vmcs_ : vmcs;
  msr_bitmap_ : list Z;
  host_tss_ : list Z;
  host_idt_ : list Z;
  host_gdt_ : list Z;
  addr_vmxon_ : Z;
  addr_vmcs_ : Z;
  addr_msr_bitmap_ : Z;
  addr_host_stack_ : Z;
  addr_host_tss_ : Z;
  addr_host_idt_ : Z;
  addr_host_gdt_ : Z
}.

(** ** The processor *)

(** [cpuid_eax_01]: the four registers filled by [__cpuid]. *)
Record cpuid_eax_01 : Set := {
  cpuid_version_information : Z;
  cpuid_additional_information : Z;
  cpuid_feature_information_ecx : Z;
  cpuid_feature_information_edx : Z
}.

(** [segment_descriptor_register_64], as stored by [_sgdt] / [__sidt]. *)
Record segment_descriptor_register_64 : Set := {
  limit : Z;
  base_address : Z
}.

(** The segment registers. *)
Inductive segment_register : Set := CS | SS | DS | ES | FS | GS | TR | LDTR.

Record machine : Type := {
  cr0 : Z;
  cr3 : Z;
  cr4 : Z;
  dr7 : Z;
  eflags : Z;
  interrupts_enabled : bool;
  cpuid : Z -> cpuid_eax_01;
  msr : msr_index -> Z;
  gdtr : segment_descriptor_register_64;
  idtr : segment_descriptor_register_64;
  segmentlimit : Z -> Z;
  (* the selectors currently loaded; vcpu.cpp never reads them *)
  selector : segment_register -> Z;
  (* VMX state of the core *)
  vmx_root : bool;
  current_vmcs : option Z;
  vmcs_fields : vmcs_field -> Z;
  (* the per-core object *)
  this : vcpu
}.

(** The external handlers a vm-exit is routed to (exit-handlers.h). *)
Inductive exit_handler : Set :=
| handle_mov_cr
| emulate_cpuid
| emulate_rdmsr
| emulate_wrmsr
| handle_exception_or_nmi
| handle_nmi_window.

(** What the code does to the outside, in program order. *)
Inductive event : Type :=
| ev_disable
| ev_enable
| ev_writecr0 (value : Z)
| ev_writecr4 (value : Z)
| ev_vmxon (phys : Z) (ok : bool)
| ev_invept (type : Z)
| ev_vmclear (phys : Z) (ok : bool)
| ev_vmptrld (phys : Z) (ok : bool)
| ev_vmxoff
| ev_vmwrite (field : vmcs_field) (value : Z)
| ev_vm_launch (ok : bool)
| ev_prepare_host_idt
| ev_prepare_host_gdt (tss : Z)
| ev_exit_handler (h : exit_handler)
| ev_assert_failed
| ev_debugbreak
| ev_DbgPrint (format : string) (args : list Z).

(** ** External collaborators

    Everything [vcpu.cpp] calls but does not define, apart from the
    compiler intrinsics: address translation, the verdict of the VMX
    instructions that can fail, the capability adjustment behind the
    [write_ctrl_*_safe] helpers, the table builders, the descriptor
    walkers, the two record types passed in by the trampolines, the
    exit handlers, and the build configuration. *)
Class externals : Type := {
  (* util/mm.h *)
  get_physical : Z -> Z;
  (* the processor's verdict on VMXON, VMCLEAR, VMPTRLD and on the
     launch performed by vm-launch.asm *)
  vmxon_succeeds : machine -> Z -> bool;
  vmclear_succeeds : machine -> Z -> bool;
  vmptrld_succeeds : machine -> Z -> bool;
  vm_launch_succeeds : machine -> bool;
  (* util/vmx.h: the value a [write_ctrl_*_safe] helper ends up writing *)
  adjust_pin_based : machine -> Z -> Z;
  adjust_proc_based : machine -> Z -> Z;
  adjust_proc_based2 : machine -> Z -> Z;
  adjust_exit : machine -> Z -> Z;
  adjust_entry : machine -> Z -> Z;
  (* idt.h, gdt.h *)
  prepare_host_idt : list Z -> list Z;
  prepare_host_gdt : list Z -> Z -> list Z;
  (* util/segment.h *)
  segment_base : segment_descriptor_register_64 -> Z -> Z;
  segment_access : segment_descriptor_register_64 -> Z -> Z;
  (* vm-exit.asm: the address of [__vm_exit] *)
  vm_exit_address : Z;
  KeGetCurrentProcessorIndex : machine -> Z;
  (* util/guest-context.h, util/trap-frame.h *)
  guest_context : Type;
  trap_frame : Type;
  vector : trap_frame -> Z;
  (* exit-handlers.h *)
  run_exit_handler : exit_handler -> guest_context -> machine -> guest_context * machine;
  (* build configuration *)
  NDEBUG : bool
}.

(** ** Record updates *)

Definition with_cr0 (v : Z) (m : machine) : machine :=
  {| cr0 := v; cr3 := cr3 m; cr4 := cr4 m; dr7 := dr7 m; eflags := eflags m;
     interrupts_enabled := interrupts_enabled m; cpuid := cpuid m; msr := msr m;
     gdtr := gdtr m; idtr := idtr m; segmentlimit := segmentlimit m;
     selector := selector m;
     vmx_root := vmx_root m; current_vmcs := current_vmcs m;
     vmcs_fields := vmcs_fields m; this := this m |}.

Definition with_cr4 (v : Z) (m : machine) : machine :=
  {| cr0 := cr0 m; cr3 := cr3 m; cr4 := v; dr7 := dr7 m; eflags := eflags m;
     interrupts_enabled := interrupts_enabled m; cpuid := cpuid m; msr := msr m;
     gdtr := gdtr m; idtr := idtr m; segmentlimit := segmentlimit m;
     selector := selector m;
     vmx_root := vmx_root m; current_vmcs := current_vmcs m;
     vmcs_fields := vmcs_fields m; this := this m |}.

Definition with_interrupts_enabled (b : bool) (m : machine) : machine :=
  {| cr0 := cr0 m; cr3 := cr3 m; cr4 := cr4 m; dr7 := dr7 m; eflags := eflags m;
     interrupts_enabled := b; cpuid := cpuid m; msr := msr m;
     gdtr := gdtr m; idtr := idtr m; segmentlimit := segmentlimit m;
     selector := selector m;
     vmx_root := vmx_root m; current_vmcs := current_vmcs m;
     vmcs_fields := vmcs_fields m; this := this m |}.

Definition with_vmx_root (b : bool) (m : machine) : machine :=
  {| cr0 := cr0 m; cr3 := cr3 m; cr4 := cr4 m; dr7 := dr7 m; eflags := eflags m;
     interrupts_enabled := interrupts_enabled m; cpuid := cpuid m; msr := msr m;
     gdtr := gdtr m; idtr := idtr m; segmentlimit := segmentlimit m;
     selector := selector m;
     vmx_root := b; current_vmcs := current_vmcs m;
     vmcs_fields := vmcs_fields m; this := this m |}.

Definition with_current_vmcs (p : option Z) (m : machine) : machine :=
  {| cr0 := cr0 m; cr3 := cr3 m; cr4 := cr4 m; dr7 := dr7 m; eflags := eflags m;
     interrupts_enabled := interrupts_enabled m; cpuid := cpuid m; msr := msr m;
     gdtr := gdtr m; idtr := idtr m; segmentlimit := segmentlimit m;
     selector := selector m;
     vmx_root := vmx_root m; current_vmcs := p;
     vmcs_fields := vmcs_fields m; this := this m |}.

Definition with_vmcs_fields (s : vmcs_field -> Z) (m : machine) : machine :=
  {| cr0 := cr0 m; cr3 := cr3 m; cr4 := cr4 m; dr7 := dr7 m; eflags := eflags m;
     interrupts_enabled := interrupts_enabled m; cpuid := cpuid m; msr := msr m;
     gdtr := gdtr m; idtr := idtr m; segmentlimit := segmentlimit m;
     selector := selector m;
     vmx_root := vmx_root m; current_vmcs := current_vmcs m;
     vmcs_fields := s; this := this m |}.

Definition with_this (o : vcpu) (m : machine) : machine :=
  {| cr0 := cr0 m; cr3 := cr3 m; cr4 := cr4 m; dr7 := dr7 m; eflags := eflags m;
     interrupts_enabled := interrupts_enabled m; cpuid := cpuid m; msr := msr m;
     gdtr := gdtr m; idtr := idtr m; segmentlimit := segmentlimit m;
     selector := selector m;
     vmx_root := vmx_root m; current_vmcs := current_vmcs m;
     vmcs_fields := vmcs_fields m; this := o |}.

Definition with_vmxon_ (r : vmxon) (o : vcpu) : vcpu :=
  {| vmxon_ := r; vmcs_ := vmcs_ o; msr_bitmap_ := msr_bitmap_ o;
     host_tss_ := host_tss_ o; host_idt_ := host_idt_ o; host_gdt_ := host_gdt_ o;
     addr_vmxon_ := addr_vmxon_ o; addr_vmcs_ := addr_vmcs_ o;
     addr_msr_bitmap_ := addr_msr_bitmap_ o; addr_host_stack_ := addr_host_stack_ o;
     addr_host_tss_ := addr_host_tss_ o; addr_host_idt_ := addr_host_idt_ o;
     addr_host_gdt_ := addr_host_gdt_ o |}.

Definition with_vmcs_ (r : vmcs) (o : vcpu) : vcpu :=
  {| vmxon_ := vmxon_ o; vmcs_ := r; msr_bitmap_ := msr_bitmap_ o;
     host_tss_ := host_tss_ o; host_idt_ := host_idt_ o; host_gdt_ := host_gdt_ o;
     addr_vmxon_ := addr_vmxon_ o; addr_vmcs_ := addr_vmcs_ o;
     addr_msr_bitmap_ := addr_msr_bitmap_ o; addr_host_stack_ := addr_host_stack_ o;
     addr_host_tss_ := addr_host_tss_ o; addr_host_idt_ := addr_host_idt_ o;
     addr_host_gdt_ := addr_host_gdt_ o |}.

Definition with_msr_bitmap_ (b : list Z) (o : vcpu) : vcpu :=
  {| vmxon_ := vmxon_ o; vmcs_ := vmcs_ o; msr_bitmap_ := b;
     host_tss_ := host_tss_ o; host_idt_ := host_idt_ o; host_gdt_ := host_gdt_ o;
     addr_vmxon_ := addr_vmxon_ o; addr_vmcs_ := addr_vmcs_ o;
     addr_msr_bitmap_ := addr_msr_bitmap_ o; addr_host_stack_ := addr_host_stack_ o;
     addr_host_tss_ := addr_host_tss_ o; addr_host_idt_ := addr_host_idt_ o;
     addr_host_gdt_ := addr_host_gdt_ o |}.

Definition with_host_tss_ (b : list Z) (o : vcpu) : vcpu :=
  {| vmxon_ := vmxon_ o; vmcs_ := vmcs_ o; msr_bitmap_ := msr_bitmap_ o;
     host_tss_ := b; host_idt_ := host_idt_ o; host_gdt_ := host_gdt_ o;
     addr_vmxon_ := addr_vmxon_ o; addr_vmcs_ := addr_vmcs_ o;
     addr_msr_bitmap_ := addr_msr_bitmap_ o; addr_host_stack_ := addr_host_stack_ o;
     addr_host_tss_ := addr_host_tss_ o; addr_host_idt_ := addr_host_idt_ o;
     addr_host_gdt_ := addr_host_gdt_ o |}.

Definition with_host_idt_ (b : list Z) (o : vcpu) : vcpu :=
  {| vmxon_ := vmxon_ o; vmcs_ := vmcs_ o; msr_bitmap_ := msr_bitmap_ o;
     host_tss_ := host_tss_ o; host_idt_ := b; host_gdt_ := host_gdt_ o;
     addr_vmxon_ := addr_vmxon_ o; addr_vmcs_ := addr_vmcs_ o;
     addr_msr_bitmap_ := addr_msr_bitmap_ o; addr_host_stack_ := addr_host_stack_ o;
     addr_host_tss_ := addr_host_tss_ o; addr_host_idt_ := addr_host_idt_ o;
     addr_host_gdt_ := addr_host_gdt_ o |}.

Definition with_host_gdt_ (b : list Z) (o : vcpu) : vcpu :=
  {| vmxon_ := vmxon_ o; vmcs_ := vmcs_ o; msr_bitmap_ := msr_bitmap_ o;
     host_tss_ := host_tss_ o; host_idt_ := host_idt_ o; host_gdt_ := b;
     addr_vmxon_ := addr_vmxon_ o; addr_vmcs_ := addr_vmcs_ o;
     addr_msr_bitmap_ := addr_msr_bitmap_ o; addr_host_stack_ := addr_host_stack_ o;
     addr_host_tss_ := addr_host_tss_ o; addr_host_idt_ := addr_host_idt_ o;
     addr_host_gdt_ := addr_host_gdt_ o |}.

(** The VMCS as a store of field values: one field replaced. *)
Definition write_field (field : vmcs_field) (value : Z) (s : vmcs_field -> Z)
  : vmcs_field -> Z :=
  fun g => if vmcs_field_eq_dec g field then value else s g.

(** ** The monad of the embedding: state and output *)

(** What running a computation yields: the value returned, the machine
    left behind, and the events issued, oldest first, each with the
    machine it was issued in. *)
Record outcome (A : Type) : Type := {
  value : A;
  final : machine;
  issued : list (machine * event)
}.
Arguments value {A} _.
Arguments final {A} _.
Arguments issued {A} _.

Definition M (A : Type) : Type := machine -> outcome A.

Definition ret {A : Type} (a : A) : M A :=
  fun m => {| value := a; final := m; issued := [] |}.

Definition bind {A B : Type} (c : M A) (k : A -> M B) : M B :=
  fun m =>
    let o1 := c m in
    let o2 := k (value o1) (final o1) in
    {| value := value o2; final := final o2; issued := issued o1 ++ issued o2 |}.

Declare Scope hv_scope.
Delimit Scope hv_scope with hv.
Notation "x <- c ;; k" := (bind c (fun x => k))
  (at level 200, c at level 100, k at level 200, right associativity) : hv_scope.
Notation "c ;; k" := (bind c (fun _ => k))
  (at level 200, k at level 200, right associativity) : hv_scope.
Local Open Scope hv_scope.

(** Read the machine. *)
Definition gets {A : Type} (f : machine -> A) : M A :=
  fun m => {| value := f m; final := m; issued := [] |}.

(** Change the machine. *)
Definition modify (f : machine -> machine) : M unit :=
  fun m => {| value := tt; final := f m; issued := [] |}.

(** Issue an event. *)
Definition emit (e : event) : M unit :=
  fun m => {| value := tt; final := m; issued := [(m, e)] |}.

Definition when (b : bool) (c : M unit) : M unit := if b then c else ret tt.

(** The events alone, without the machine states. *)
Definition events {A : Type} (o : outcome A) : list event := map snd (issued o).

Section Vcpu.

Context {arch : ia32} {ext : externals}.

(** ** Compiler intrinsics *)

Definition __cpuid (leaf : Z) : M cpuid_eax_01 := gets (fun m => cpuid m leaf).
Definition __readmsr (i : msr_index) : M Z := gets (fun m => msr m i).
Definition __readcr0 : M Z := gets cr0.
Definition __readcr3 : M Z := gets cr3.
Definition __readcr4 : M Z := gets cr4.
Definition __readdr7 : M Z := gets dr7.
Definition __readeflags : M Z := gets eflags.
Definition _sgdt : M segment_descriptor_register_64 := gets gdtr.
Definition __sidt : M segment_descriptor_register_64 := gets idtr.
Definition __segmentlimit (selector : Z) : M Z := gets (fun m => segmentlimit m selector).

Definition __writecr0 (v : Z) : M unit := emit (ev_writecr0 v) ;; modify (with_cr0 v).
Definition __writecr4 (v : Z) : M unit := emit (ev_writecr4 v) ;; modify (with_cr4 v).
Definition _disable : M unit := emit ev_disable ;; modify (with_interrupts_enabled false).
Definition _enable : M unit := emit ev_enable ;; modify (with_interrupts_enabled true).

(** [__debugbreak] and a failed [NT_ASSERT] trap to the debugger; the
    trap is logged and execution carries on with the next statement, as
    it does once the debugger resumes (a free build compiles the
    assertion away). *)
Definition __debugbreak : M unit := emit ev_debugbreak.
Definition NT_ASSERT (cond : bool) : M unit := when (negb cond) (emit ev_assert_failed).

Definition DbgPrint (format : string) (args : list Z) : M unit :=
  emit (ev_DbgPrint format args).

(** [memset(&x, 0, sizeof(x))] *)
Definition memset0 (bytes : list Z) : list Z := map (fun _ => 0) bytes.

(** ** util/vmx.h, util/mm.h, vm-launch.asm, exit-handlers.h *)

(** Modelled from the spec: [vmx_vmxon] of util/vmx.h is not under src.
    Section 4.2: the instruction is issued with the region's physical
    address and reports success or failure; on success the core is in
    VMX root operation. *)
Definition vmx_vmxon (phys : Z) : M bool :=
  ok <- gets (fun m => vmxon_succeeds m phys) ;;
  emit (ev_vmxon phys ok) ;;
  when ok (modify (with_vmx_root true)) ;;
  ret ok.

(** Modelled from the spec: [vmx_vmxoff] of util/vmx.h is not under src.
    Section 7: the instruction exits root operation. *)
Definition vmx_vmxoff : M unit :=
  emit ev_vmxoff ;; modify (with_vmx_root false).

(** Modelled from the spec: [vmx_invept] of util/vmx.h is not under src.
    Section 4.2: invalidates cached extended-page-table translations. *)
Definition vmx_invept (type : Z) : M unit := emit (ev_invept type).

(** Modelled from the spec: [vmx_vmclear] of util/vmx.h is not under src.
    Section 4.3: resets the structure at that address to an inactive
    state, and reports success or failure. *)
Definition vmx_vmclear (phys : Z) : M bool :=
  ok <- gets (fun m => vmclear_succeeds m phys) ;;
  emit (ev_vmclear phys ok) ;;
  when ok (modify (fun m =>
    match current_vmcs m with
    | Some p => if p =? phys then with_current_vmcs None m else m
    | None => m
    end)) ;;
  ret ok.

(** Modelled from the spec: [vmx_vmptrld] of util/vmx.h is not under src.
    Section 4.3: makes the structure at that address the active one for
    subsequent field reads and writes, and reports success or failure. *)
Definition vmx_vmptrld (phys : Z) : M bool :=
  ok <- gets (fun m => vmptrld_succeeds m phys) ;;
  emit (ev_vmptrld phys ok) ;;
  when ok (modify (with_current_vmcs (Some phys))) ;;
  ret ok.

(** Modelled from the spec: [vmx_vmread] of util/vmx.h is not under src.
    Section 8: reading a field returns the value last written to it. *)
Definition vmx_vmread (field : vmcs_field) : M Z :=
  gets (fun m => vmcs_fields m field).

(** Modelled from the spec: [vmx_vmwrite] of util/vmx.h is not under src.
    Section 4.5: a structure-field write (field identifier, value). *)
Definition vmx_vmwrite (field : vmcs_field) (value : Z) : M unit :=
  emit (ev_vmwrite field value) ;;
  modify (fun m => with_vmcs_fields (write_field field value (vmcs_fields m)) m).

(** Modelled from the spec: [read_ctrl_proc_based] of util/vmx.h is not
    under src.  Section 4.7: reads the current processor-based execution
    controls. *)
Definition read_ctrl_proc_based : M Z :=
  vmx_vmread VMCS_CTRL_PROCESSOR_BASED_VM_EXECUTION_CONTROLS.

(** Modelled from the spec: [write_ctrl_proc_based] of util/vmx.h is not
    under src.  Section 4.7: writes the controls back. *)
Definition write_ctrl_proc_based (value : Z) : M unit :=
  vmx_vmwrite VMCS_CTRL_PROCESSOR_BASED_VM_EXECUTION_CONTROLS value.

(** Modelled from the spec: the [write_ctrl_*_safe] helpers of util/vmx.h
    are not under src.  Section 4.5: each programs one control word; what
    the capability registers make of the requested value is the
    parameter [adjust_*]. *)
Definition write_ctrl_pin_based_safe (value : Z) : M unit :=
  v <- gets (fun m => adjust_pin_based m value) ;;
  vmx_vmwrite VMCS_CTRL_PIN_BASED_VM_EXECUTION_CONTROLS v.
Definition write_ctrl_proc_based_safe (value : Z) : M unit :=
  v <- gets (fun m => adjust_proc_based m value) ;;
  vmx_vmwrite VMCS_CTRL_PROCESSOR_BASED_VM_EXECUTION_CONTROLS v.
Definition write_ctrl_proc_based2_safe (value : Z) : M unit :=
  v <- gets (fun m => adjust_proc_based2 m value) ;;
  vmx_vmwrite VMCS_CTRL_SECONDARY_PROCESSOR_BASED_VM_EXECUTION_CONTROLS v.
Definition write_ctrl_exit_safe (value : Z) : M unit :=
  v <- gets (fun m => adjust_exit m value) ;;
  vmx_vmwrite VMCS_CTRL_VMEXIT_CONTROLS v.
Definition write_ctrl_entry_safe (value : Z) : M unit :=
  v <- gets (fun m => adjust_entry m value) ;;
  vmx_vmwrite VMCS_CTRL_VMENTRY_CONTROLS v.

(** Modelled from the spec: [__vm_launch] of vm-launch.asm is not under
    src.  Section 6: issues the launch and returns a success indicator. *)
Definition __vm_launch : M bool :=
  ok <- gets vm_launch_succeeds ;;
  emit (ev_vm_launch ok) ;;
  ret ok.

(** A call to one of the handlers of exit-handlers.h: it may change the
    guest context it is given and the machine. *)
Definition call_exit_handler (h : exit_handler) (ctx : guest_context) : M guest_context :=
  fun m =>
    let r := run_exit_handler h ctx m in
    {| value := fst r; final := snd r; issued := [(m, ev_exit_handler h)] |}.

(** ** Assignments to the members of the object *)

Definition set_vmxon_ (f : vmxon -> vmxon) : M unit :=
  modify (fun m => with_this (with_vmxon_ (f (vmxon_ (this m))) (this m)) m).
Definition set_vmcs_ (f : vmcs -> vmcs) : M unit :=
  modify (fun m => with_this (with_vmcs_ (f (vmcs_ (this m))) (this m)) m).
Definition set_this (f : vcpu -> vcpu) : M unit :=
  modify (fun m => with_this (f (this m)) m).

(** ** vcpu.cpp *)

(** perform certain actions that are required before entering vmx operation *)
Definition enable_vmx_operation : M bool :=
  cpuid_1 <- __cpuid 1 ;;
  (* 3.23.6 *)
  if negb (flag (cpuid_feature_information_ecx cpuid_1) virtual_machine_extensions)
  then ret false else
  feature_control <- __readmsr IA32_FEATURE_CONTROL ;;
  (* 3.23.7 *)
  if negb (flag feature_control lock_bit)
     || negb (flag feature_control enable_vmx_outside_smx)
  then ret false else
  _disable ;;
  cr0 <- __readcr0 ;;
  cr4 <- __readcr4 ;;
  (* 3.23.7 *)
  let cr4 := Z.lor cr4 CR4_VMX_ENABLE_FLAG in
  (* 3.23.8 *)
  fixed <- __readmsr IA32_VMX_CR0_FIXED0 ;; let cr0 := Z.lor cr0 fixed in
  fixed <- __readmsr IA32_VMX_CR0_FIXED1 ;; let cr0 := Z.land cr0 fixed in
  fixed <- __readmsr IA32_VMX_CR4_FIXED0 ;; let cr4 := Z.lor cr4 fixed in
  fixed <- __readmsr IA32_VMX_CR4_FIXED1 ;; let cr4 := Z.land cr4 fixed in
  __writecr0 cr0 ;;
  __writecr4 cr4 ;;
  _enable ;;
  ret true.

(** enter vmx operation by executing VMXON *)
Definition enter_vmx_operation : M bool :=
  vmx_basic <- __readmsr IA32_VMX_BASIC ;;
  (* 3.24.11.5 *)
  set_vmxon_ (fun r => {| vmxon_revision_id := vmcs_revision_id vmx_basic;
                          must_be_zero := must_be_zero r |}) ;;
  set_vmxon_ (fun r => {| vmxon_revision_id := vmxon_revision_id r;
                          must_be_zero := 0 |}) ;;
  vmxon_phys <- gets (fun m => get_physical (addr_vmxon_ (this m))) ;;
  NT_ASSERT (vmxon_phys mod 0x1000 =? 0) ;;
  (* enter vmx operation *)
  ok <- vmx_vmxon vmxon_phys ;;
  if negb ok then
    (* TODO: cleanup *)
    ret false
  else
  (* 3.28.3.3.4 *)
  vmx_invept invept_all_context ;;
  ret true.

(** set the working-vmcs pointer to point to our vmcs structure *)
Definition set_vmcs_pointer : M bool :=
  vmx_basic <- __readmsr IA32_VMX_BASIC ;;
  (* 3.24.2 *)
  set_vmcs_ (fun r => {| revision_id := vmcs_revision_id vmx_basic;
                         shadow_vmcs_indicator := shadow_vmcs_indicator r |}) ;;
  set_vmcs_ (fun r => {| revision_id := revision_id r;
                         shadow_vmcs_indicator := 0 |}) ;;
  vmcs_phys <- gets (fun m => get_physical (addr_vmcs_ (this m))) ;;
  NT_ASSERT (vmcs_phys mod 0x1000 =? 0) ;;
  ok <- vmx_vmclear vmcs_phys ;;
  if negb ok then ret false else
  ok <- vmx_vmptrld vmcs_phys ;;
  if negb ok then ret false else
  ret true.

(** initialize external structures *)
Definition prepare_external_structures : M unit :=
  (* setup the msr bitmap so that we don't vm-exit on any msr access *)
  set_this (fun o => with_msr_bitmap_ (memset0 (msr_bitmap_ o)) o) ;;
  (* we don't care about anything that is in the TSS *)
  set_this (fun o => with_host_tss_ (memset0 (host_tss_ o)) o) ;;
  emit ev_prepare_host_idt ;;
  set_this (fun o => with_host_idt_ (prepare_host_idt (host_idt_ o)) o) ;;
  tss <- gets (fun m => addr_host_tss_ (this m)) ;;
  emit (ev_prepare_host_gdt tss) ;;
  set_this (fun o => with_host_gdt_ (prepare_host_gdt (host_gdt_ o) tss) o).

(** write VMCS control fields *)
Definition write_vmcs_ctrl_fields : M unit :=
  (* 3.24.6.1 *)
  let pin_based_ctrl := 0 in
  let pin_based_ctrl := set_flag pin_based_ctrl virtual_nmi in
  let pin_based_ctrl := set_flag pin_based_ctrl nmi_exiting in
  write_ctrl_pin_based_safe pin_based_ctrl ;;
  (* 3.24.6.2 *)
  let proc_based_ctrl := 0 in
  let proc_based_ctrl :=
    if NDEBUG then proc_based_ctrl
    else set_flag (set_flag proc_based_ctrl cr3_load_exiting) cr3_store_exiting in
  let proc_based_ctrl := set_flag proc_based_ctrl use_msr_bitmaps in
  let proc_based_ctrl := set_flag proc_based_ctrl activate_secondary_controls in
  write_ctrl_proc_based_safe proc_based_ctrl ;;
  (* 3.24.6.2 *)
  let proc_based_ctrl2 := 0 in
  let proc_based_ctrl2 := set_flag proc_based_ctrl2 enable_rdtscp in
  let proc_based_ctrl2 := set_flag proc_based_ctrl2 enable_invpcid in
  let proc_based_ctrl2 := set_flag proc_based_ctrl2 enable_xsaves in
  let proc_based_ctrl2 := set_flag proc_based_ctrl2 enable_user_wait_pause in
  let proc_based_ctrl2 := set_flag proc_based_ctrl2 procbased2_conceal_vmx_from_pt in
  write_ctrl_proc_based2_safe proc_based_ctrl2 ;;
  (* 3.24.7 *)
  let exit_ctrl := 0 in
  let exit_ctrl := set_flag exit_ctrl save_debug_controls in
  let exit_ctrl := set_flag exit_ctrl host_address_space_size in
  let exit_ctrl := set_flag exit_ctrl exit_conceal_vmx_from_pt in
  write_ctrl_exit_safe exit_ctrl ;;
  (* 3.24.8 *)
  let entry_ctrl := 0 in
  let entry_ctrl := set_flag entry_ctrl load_debug_controls in
  let entry_ctrl := set_flag entry_ctrl ia32e_mode_guest in
  let entry_ctrl := set_flag entry_ctrl entry_conceal_vmx_from_pt in
  write_ctrl_entry_safe entry_ctrl ;;
  (* 3.24.6.3 *)
  vmx_vmwrite VMCS_CTRL_EXCEPTION_BITMAP 0 ;;
  (* set up the pagefault mask and match in such a way so
     that a vm-exit is never triggered for a pagefault *)
  vmx_vmwrite VMCS_CTRL_PAGEFAULT_ERROR_CODE_MASK 0 ;;
  vmx_vmwrite VMCS_CTRL_PAGEFAULT_ERROR_CODE_MATCH 0 ;;
  (* 3.24.6.6 *)
  vmx_vmwrite VMCS_CTRL_CR4_GUEST_HOST_MASK 0 ;;
  vmx_vmwrite VMCS_CTRL_CR4_READ_SHADOW 0 ;;
  vmx_vmwrite VMCS_CTRL_CR0_GUEST_HOST_MASK 0 ;;
  vmx_vmwrite VMCS_CTRL_CR0_READ_SHADOW 0 ;;
  (* 3.24.6.7 *)
  vmx_vmwrite VMCS_CTRL_CR3_TARGET_COUNT 0 ;;
  vmx_vmwrite VMCS_CTRL_CR3_TARGET_VALUE_0 0 ;;
  vmx_vmwrite VMCS_CTRL_CR3_TARGET_VALUE_1 0 ;;
  vmx_vmwrite VMCS_CTRL_CR3_TARGET_VALUE_2 0 ;;
  vmx_vmwrite VMCS_CTRL_CR3_TARGET_VALUE_3 0 ;;
  (* 3.24.6.9 *)
  bitmap_phys <- gets (fun m => get_physical (addr_msr_bitmap_ (this m))) ;;
  vmx_vmwrite VMCS_CTRL_MSR_BITMAP_ADDRESS bitmap_phys ;;
  (* 3.24.7.2 *)
  vmx_vmwrite VMCS_CTRL_VMEXIT_MSR_STORE_COUNT 0 ;;
  vmx_vmwrite VMCS_CTRL_VMEXIT_MSR_STORE_ADDRESS 0 ;;
  vmx_vmwrite VMCS_CTRL_VMEXIT_MSR_LOAD_COUNT 0 ;;
  vmx_vmwrite VMCS_CTRL_VMEXIT_MSR_LOAD_ADDRESS 0 ;;
  (* 3.24.8.2 *)
  vmx_vmwrite VMCS_CTRL_VMENTRY_MSR_LOAD_COUNT 0 ;;
  vmx_vmwrite VMCS_CTRL_VMENTRY_MSR_LOAD_ADDRESS 0 ;;
  (* 3.24.8.3 *)
  vmx_vmwrite VMCS_CTRL_VMENTRY_INTERRUPTION_INFORMATION_FIELD 0 ;;
  vmx_vmwrite VMCS_CTRL_VMENTRY_EXCEPTION_ERROR_CODE 0 ;;
  vmx_vmwrite VMCS_CTRL_VMENTRY_INSTRUCTION_LENGTH 0.

(** [((reinterpret_cast<size_t>(host_stack_) + host_stack_size) & ~0b1111ull) - 8] *)
Definition host_rsp (host_stack_ : Z) : Z :=
  wrap64 (Z.land (wrap64 (wrap64 host_stack_ + host_stack_size)) 0xFFFFFFFFFFFFFFF0 - 8).

(** write VMCS host fields *)
Definition write_vmcs_host_fields : M unit :=
  (* TODO: we should be using our own control registers (even for cr0/cr4) *)
  v <- __readcr0 ;; vmx_vmwrite VMCS_HOST_CR0 v ;;
  v <- __readcr3 ;; vmx_vmwrite VMCS_HOST_CR3 v ;;
  v <- __readcr4 ;; vmx_vmwrite VMCS_HOST_CR4 v ;;
  (* ensure that rsp is NOT aligned to 16 bytes when execution starts *)
  rsp <- gets (fun m => host_rsp (addr_host_stack_ (this m))) ;;
  vmx_vmwrite VMCS_HOST_RSP rsp ;;
  vmx_vmwrite VMCS_HOST_RIP vm_exit_address ;;
  vmx_vmwrite VMCS_HOST_CS_SELECTOR (selector_flags host_cs_selector) ;;
  vmx_vmwrite VMCS_HOST_SS_SELECTOR 0x00 ;;
  vmx_vmwrite VMCS_HOST_DS_SELECTOR 0x00 ;;
  vmx_vmwrite VMCS_HOST_ES_SELECTOR 0x00 ;;
  vmx_vmwrite VMCS_HOST_FS_SELECTOR 0x00 ;;
  vmx_vmwrite VMCS_HOST_GS_SELECTOR 0x00 ;;
  vmx_vmwrite VMCS_HOST_TR_SELECTOR (selector_flags host_tr_selector) ;;
  vmx_vmwrite VMCS_HOST_FS_BASE 0 ;;
  vmx_vmwrite VMCS_HOST_GS_BASE 0 ;;
  a <- gets (fun m => addr_host_tss_ (this m)) ;; vmx_vmwrite VMCS_HOST_TR_BASE a ;;
  a <- gets (fun m => addr_host_gdt_ (this m)) ;; vmx_vmwrite VMCS_HOST_GDTR_BASE a ;;
  a <- gets (fun m => addr_host_idt_ (this m)) ;; vmx_vmwrite VMCS_HOST_IDTR_BASE a ;;
  vmx_vmwrite VMCS_HOST_SYSENTER_CS 0 ;;
  vmx_vmwrite VMCS_HOST_SYSENTER_ESP 0 ;;
  vmx_vmwrite VMCS_HOST_SYSENTER_EIP 0.

(** write VMCS guest fields *)
Definition write_vmcs_guest_fields : M unit :=
  v <- __readcr0 ;; vmx_vmwrite VMCS_GUEST_CR0 v ;;
  v <- __readcr3 ;; vmx_vmwrite VMCS_GUEST_CR3 v ;;
  v <- __readcr4 ;; vmx_vmwrite VMCS_GUEST_CR4 v ;;
  v <- __readdr7 ;; vmx_vmwrite VMCS_GUEST_DR7 v ;;
  (* RIP and RSP are set in vm-launch.asm *)
  vmx_vmwrite VMCS_GUEST_RSP 0 ;;
  vmx_vmwrite VMCS_GUEST_RIP 0 ;;
  v <- __readeflags ;; vmx_vmwrite VMCS_GUEST_RFLAGS v ;;
  (* TODO: don't hardcode the segment selectors idiot... *)
  vmx_vmwrite VMCS_GUEST_CS_SELECTOR 0x10 ;;
  vmx_vmwrite VMCS_GUEST_SS_SELECTOR 0x18 ;;
  vmx_vmwrite VMCS_GUEST_DS_SELECTOR 0x2B ;;
  vmx_vmwrite VMCS_GUEST_ES_SELECTOR 0x2B ;;
  vmx_vmwrite VMCS_GUEST_FS_SELECTOR 0x53 ;;
  vmx_vmwrite VMCS_GUEST_GS_SELECTOR 0x2B ;;
  vmx_vmwrite VMCS_GUEST_TR_SELECTOR 0x40 ;;
  vmx_vmwrite VMCS_GUEST_LDTR_SELECTOR 0x00 ;;
  gdtr <- _sgdt ;;
  idtr <- __sidt ;;
  vmx_vmwrite VMCS_GUEST_CS_BASE (segment_base gdtr 0x10) ;;
  vmx_vmwrite VMCS_GUEST_SS_BASE (segment_base gdtr 0x18) ;;
  vmx_vmwrite VMCS_GUEST_DS_BASE (segment_base gdtr 0x2B) ;;
  vmx_vmwrite VMCS_GUEST_ES_BASE (segment_base gdtr 0x2B) ;;
  v <- __readmsr IA32_FS_BASE ;; vmx_vmwrite VMCS_GUEST_FS_BASE v ;;
  v <- __readmsr IA32_GS_BASE ;; vmx_vmwrite VMCS_GUEST_GS_BASE v ;;
  vmx_vmwrite VMCS_GUEST_TR_BASE (segment_base gdtr 0x40) ;;
  vmx_vmwrite VMCS_GUEST_LDTR_BASE (segment_base gdtr 0x00) ;;
  v <- __segmentlimit 0x10 ;; vmx_vmwrite VMCS_GUEST_CS_LIMIT v ;;
  v <- __segmentlimit 0x18 ;; vmx_vmwrite VMCS_GUEST_SS_LIMIT v ;;
  v <- __segmentlimit 0x2B ;; vmx_vmwrite VMCS_GUEST_DS_LIMIT v ;;
  v <- __segmentlimit 0x2B ;; vmx_vmwrite VMCS_GUEST_ES_LIMIT v ;;
  v <- __segmentlimit 0x53 ;; vmx_vmwrite VMCS_GUEST_FS_LIMIT v ;;
  v <- __segmentlimit 0x2B ;; vmx_vmwrite VMCS_GUEST_GS_LIMIT v ;;
  v <- __segmentlimit 0x40 ;; vmx_vmwrite VMCS_GUEST_TR_LIMIT v ;;
  v <- __segmentlimit 0x00 ;; vmx_vmwrite VMCS_GUEST_LDTR_LIMIT v ;;
  vmx_vmwrite VMCS_GUEST_CS_ACCESS_RIGHTS (segment_access gdtr 0x10) ;;
  vmx_vmwrite VMCS_GUEST_SS_ACCESS_RIGHTS (segment_access gdtr 0x18) ;;
  vmx_vmwrite VMCS_GUEST_DS_ACCESS_RIGHTS (segment_access gdtr 0x2B) ;;
  vmx_vmwrite VMCS_GUEST_ES_ACCESS_RIGHTS (segment_access gdtr 0x2B) ;;
  vmx_vmwrite VMCS_GUEST_FS_ACCESS_RIGHTS (segment_access gdtr 0x53) ;;
  vmx_vmwrite VMCS_GUEST_GS_ACCESS_RIGHTS (segment_access gdtr 0x2B) ;;
  vmx_vmwrite VMCS_GUEST_TR_ACCESS_RIGHTS (segment_access gdtr 0x40) ;;
  vmx_vmwrite VMCS_GUEST_LDTR_ACCESS_RIGHTS (segment_access gdtr 0x00) ;;
  vmx_vmwrite VMCS_GUEST_GDTR_BASE (base_address gdtr) ;;
  vmx_vmwrite VMCS_GUEST_IDTR_BASE (base_address idtr) ;;
  vmx_vmwrite VMCS_GUEST_GDTR_LIMIT (limit gdtr) ;;
  vmx_vmwrite VMCS_GUEST_IDTR_LIMIT (limit idtr) ;;
  v <- __readmsr IA32_DEBUGCTL ;; vmx_vmwrite VMCS_GUEST_DEBUGCTL v ;;
  v <- __readmsr IA32_SYSENTER_CS ;; vmx_vmwrite VMCS_GUEST_SYSENTER_CS v ;;
  v <- __readmsr IA32_SYSENTER_ESP ;; vmx_vmwrite VMCS_GUEST_SYSENTER_ESP v ;;
  v <- __readmsr IA32_SYSENTER_EIP ;; vmx_vmwrite VMCS_GUEST_SYSENTER_EIP v ;;
  vmx_vmwrite VMCS_GUEST_ACTIVITY_STATE vmx_active ;;
  vmx_vmwrite VMCS_GUEST_INTERRUPTIBILITY_STATE 0 ;;
  vmx_vmwrite VMCS_GUEST_PENDING_DEBUG_EXCEPTIONS 0 ;;
  vmx_vmwrite VMCS_GUEST_VMCS_LINK_POINTER 0xFFFFFFFFFFFFFFFF.

(** virtualize the current cpu
    note, this assumes that execution is already restricted to the desired cpu *)
Definition virtualize : M bool :=
  ok <- enable_vmx_operation ;;
  if negb ok then ret false else
  DbgPrint "[hv] enabled vmx operation.\n" [] ;;
  ok <- enter_vmx_operation ;;
  if negb ok then ret false else
  DbgPrint "[hv] entered vmx operation.\n" [] ;;
  ok <- set_vmcs_pointer ;;
  if negb ok then
    (* TODO: cleanup *)
    vmx_vmxoff ;;
    ret false
  else
  DbgPrint "[hv] set vmcs pointer.\n" [] ;;
  prepare_external_structures ;;
  DbgPrint "[hv] initialized external host structures.\n" [] ;;
  write_vmcs_ctrl_fields ;;
  write_vmcs_host_fields ;;
  write_vmcs_guest_fields ;;
  DbgPrint "[hv] initialized the vmcs.\n" [] ;;
  (* launch the virtual machine *)
  ok <- __vm_launch ;;
  if negb ok then
    error <- vmx_vmread VMCS_VM_INSTRUCTION_ERROR ;;
    DbgPrint "[hv] vmlaunch failed, error = %lli.\n" [error] ;;
    (* TODO: cleanup *)
    vmx_vmxoff ;;
    ret false
  else
  cpu <- gets KeGetCurrentProcessorIndex ;;
  DbgPrint "[hv] virtualized cpu #%i\n" [cpu] ;;
  ret true.

(** called for every vm-exit *)
Definition handle_vm_exit (ctx : guest_context) : M guest_context :=
  raw <- vmx_vmread VMCS_EXIT_REASON ;;
  let exit_reason := wrap32 raw in
  let reason := basic_exit_reason exit_reason in
  if reason =? VMX_EXIT_REASON_MOV_CR then
    call_exit_handler handle_mov_cr ctx
  else if reason =? VMX_EXIT_REASON_EXECUTE_CPUID then
    call_exit_handler emulate_cpuid ctx
  else if reason =? VMX_EXIT_REASON_EXECUTE_RDMSR then
    call_exit_handler emulate_rdmsr ctx
  else if reason =? VMX_EXIT_REASON_EXECUTE_WRMSR then
    call_exit_handler emulate_wrmsr ctx
  else if reason =? VMX_EXIT_REASON_EXCEPTION_OR_NMI then
    call_exit_handler handle_exception_or_nmi ctx
  else if reason =? VMX_EXIT_REASON_NMI_WINDOW then
    call_exit_handler handle_nmi_window ctx
  else
    __debugbreak ;;
    rip <- vmx_vmread VMCS_GUEST_RIP ;;
    DbgPrint "[hv] vm-exit occurred. RIP=0x%zX.\n" [rip] ;;
    ret ctx.

(** called for every host interrupt *)
Definition handle_host_interrupt (frame : trap_frame) : M unit :=
  if vector frame =? nmi then
    (* host NMIs *)
    ctrl <- read_ctrl_proc_based ;;
    let ctrl := set_flag ctrl nmi_window_exiting in
    write_ctrl_proc_based ctrl
  else
    ret tt.

End Vcpu.

(** ** Reading the events of a run *)

(** The exit handlers a run called, in order. *)
Definition handlers_called {A : Type} (o : outcome A) : list exit_handler :=
  flat_map (fun e => match e with ev_exit_handler h => [h] | _ => [] end) (events o).

(** The values a run wrote to one VMCS field, in order. *)
Definition vmwrites_to {A : Type} (field : vmcs_field) (o : outcome A) : list Z :=
  flat_map (fun e => match e with
                     | ev_vmwrite g v => if vmcs_field_eq_dec g field then [v] else []
                     | _ => []
                     end) (events o).

(** The six case labels of the switch in [handle_vm_exit]. *)
Definition routed_exit_reasons {arch : ia32} : list Z :=
  [VMX_EXIT_REASON_MOV_CR; VMX_EXIT_REASON_EXECUTE_CPUID;
   VMX_EXIT_REASON_EXECUTE_RDMSR; VMX_EXIT_REASON_EXECUTE_WRMSR;
   VMX_EXIT_REASON_EXCEPTION_OR_NMI; VMX_EXIT_REASON_NMI_WINDOW].

(** The exit reason the dispatcher switches on in machine [m]. *)
Definition exit_reason_of {arch : ia32} (m : machine) : Z :=
  basic_exit_reason (wrap32 (vmcs_fields m VMCS_EXIT_REASON)).

(** What the processor guarantees about its fixed-bit capability
    registers on a core that supports VMX: a bit reported as fixed to 1
    is also reported as allowed to be 1, and CR4.VMXE is allowed to be 1. *)
Definition supported_core {arch : ia32} (m : machine) : Prop :=
  Z.land (msr m IA32_VMX_CR0_FIXED0) (msr m IA32_VMX_CR0_FIXED1) = msr m IA32_VMX_CR0_FIXED0 /\
  Z.land (msr m IA32_VMX_CR4_FIXED0) (msr m IA32_VMX_CR4_FIXED1) = msr m IA32_VMX_CR4_FIXED0 /\
  Z.land CR4_VMX_ENABLE_FLAG (msr m IA32_VMX_CR4_FIXED1) = CR4_VMX_ENABLE_FLAG.

(** [cr] has every bit of [fixed0] set and no bit outside [fixed1]. *)
Definition satisfies_fixed (cr fixed0 fixed1 : Z) : Prop :=
  Z.land cr fixed0 = fixed0 /\ Z.land cr fixed1 = cr.

(** ** A concrete core

    The values <ia32.hpp> gives the parameters (Intel SDM, volume 3,
    appendices A to C, and volume 2 for CPUID), a set of stand-in
    collaborators whose instruction verdicts are chosen by the caller,
    and a machine to run the code on. *)

Definition sdm : ia32 := {|
  CR4_VMX_ENABLE_FLAG := 0x2000;
  virtual_machine_extensions := 5;
  lock_bit := 0;
  enable_vmx_outside_smx := 2;
  vmcs_revision_id := fun flags => Z.land flags 0x7FFFFFFF;
  virtual_nmi := 5;
  nmi_exiting := 3;
  cr3_load_exiting := 15;
  cr3_store_exiting := 16;
  use_msr_bitmaps := 28;
  activate_secondary_controls := 31;
  nmi_window_exiting := 22;
  enable_rdtscp := 3;
  enable_invpcid := 12;
  enable_xsaves := 20;
  enable_user_wait_pause := 26;
  procbased2_conceal_vmx_from_pt := 19;
  save_debug_controls := 2;
  host_address_space_size := 9;
  exit_conceal_vmx_from_pt := 24;
  load_debug_controls := 2;
  ia32e_mode_guest := 9;
  entry_conceal_vmx_from_pt := 17;
  basic_exit_reason := fun flags => Z.land flags 0xFFFF;
  VMX_EXIT_REASON_MOV_CR := 28;
  VMX_EXIT_REASON_EXECUTE_CPUID := 10;
  VMX_EXIT_REASON_EXECUTE_RDMSR := 31;
  VMX_EXIT_REASON_EXECUTE_WRMSR := 32;
  VMX_EXIT_REASON_EXCEPTION_OR_NMI := 0;
  VMX_EXIT_REASON_NMI_WINDOW := 8;
  nmi := 2;
  vmx_active := 0;
  invept_all_context := 2;
  selector_flags := fun s =>
    request_privilege_level s + 4 * table s + 8 * index s
|}.

(** Stand-in collaborators.  The four booleans are the verdicts of
    VMXON, VMCLEAR, VMPTRLD and the launch; a guest context is the
    guest's RAX and a trap frame is its vector. *)
Definition lab (vmxon_ok vmclear_ok vmptrld_ok launch_ok : bool) : externals := {|
  get_physical := fun va => va - 0xFFFF800000000000;
  vmxon_succeeds := fun _ _ => vmxon_ok;
  vmclear_succeeds := fun _ _ => vmclear_ok;
  vmptrld_succeeds := fun _ _ => vmptrld_ok;
  vm_launch_succeeds := fun _ => launch_ok;
  adjust_pin_based := fun _ v => v;
  adjust_proc_based := fun _ v => v;
  adjust_proc_based2 := fun _ v => v;
  adjust_exit := fun _ v => v;
  adjust_entry := fun _ v => v;
  prepare_host_idt := fun t => t;
  prepare_host_gdt := fun t tss => tss :: t;
  segment_base := fun _ _ => 0;
  segment_access := fun _ sel => if sel =? 0 then 0x10000 else 0xA09B;
  vm_exit_address := 0xFFFF800012301000;
  KeGetCurrentProcessorIndex := fun _ => 0;
  guest_context := Z;
  trap_frame := Z;
  vector := fun frame => frame;
  run_exit_handler := fun h rax m =>
    match h with
    | emulate_cpuid => (0x756E6547, m)
    | emulate_rdmsr => (msr m IA32_DEBUGCTL, m)
    | _ => (rax, m)
    end;
  NDEBUG := true
|}.

(** The per-core object before [virtualize]: regions not yet stamped. *)
Definition fresh_vcpu : vcpu := {|
  vmxon_ := {| vmxon_revision_id := 0; must_be_zero := 1 |};
  vmcs_ := {| revision_id := 0; shadow_vmcs_indicator := 1 |};
  msr_bitmap_ := [0xFF; 0xFF; 0xFF; 0xFF];
  host_tss_ := [1; 2; 3];
  host_idt_ := [];
  host_gdt_ := [];
  addr_vmxon_ := 0xFFFF800012340000;
  addr_vmcs_ := 0xFFFF800012341000;
  addr_msr_bitmap_ := 0xFFFF800012342000;
  addr_host_stack_ := 0xFFFF800012343000;
  addr_host_tss_ := 0xFFFF800012349000;
  addr_host_idt_ := 0xFFFF80001234A000;
  addr_host_gdt_ := 0xFFFF80001234B000
|}.

(** A core that supports VMX, with the feature-control register locked
    and VMX enabled outside SMX. *)
Definition core0 : machine := {|
  cr0 := 0x80050033;
  cr3 := 0x1AB000;
  cr4 := 0x370678;
  dr7 := 0x400;
  eflags := 0x202;
  interrupts_enabled := true;
  cpuid := fun leaf =>
    {| cpuid_version_information := 0x906EA;
       cpuid_additional_information := 0x100800;
       cpuid_feature_information_ecx := if leaf =? 1 then 0x7FFAFBFF else 0;
       cpuid_feature_information_edx := 0xBFEBFBFF |};
  msr := fun i =>
    match i with
    | IA32_FEATURE_CONTROL => 5
    | IA32_VMX_BASIC => 0xDA040000000004
    | IA32_VMX_CR0_FIXED0 => 0x80000021
    | IA32_VMX_CR0_FIXED1 => 0xFFFFFFFF
    | IA32_VMX_CR4_FIXED0 => 0x2000
    | IA32_VMX_CR4_FIXED1 => 0x3767FF
    | _ => 0
    end;
  gdtr := {| limit := 0x57; base_address := 0xFFFFF80000001000 |};
  idtr := {| limit := 0xFFF; base_address := 0xFFFFF80000002000 |};
  segmentlimit := fun _ => 0xFFFFFFFF;
  selector := fun r =>
    match r with
    | CS => 0x10 | SS => 0x18 | TR => 0x40 | LDTR => 0 | FS => 0x53 | _ => 0x2B
    end;
  vmx_root := false;
  current_vmcs := None;
  vmcs_fields := fun _ => 0;
  this := fresh_vcpu
|}.

(** The same core with VMX locked off by the firmware. *)
Definition core_locked_off : machine :=
  {| cr0 := cr0 core0; cr3 := cr3 core0; cr4 := cr4 core0; dr7 := dr7 core0;
     eflags := eflags core0; interrupts_enabled := interrupts_enabled core0;
     cpuid := cpuid core0;
     msr := fun i => match i with IA32_FEATURE_CONTROL => 1 | _ => msr core0 i end;
     gdtr := gdtr core0; idtr := idtr core0; segmentlimit := segmentlimit core0;
     selector := selector core0;
     vmx_root := false; current_vmcs := None; vmcs_fields := vmcs_fields core0;
     this := this core0 |}.

(** [core0] in root operation with an exit reason and the
    processor-based controls in its VMCS. *)
Definition core0_exited (exit_reason proc_based : Z) : machine :=
  with_vmx_root true
    (with_vmcs_fields
       (write_field VMCS_EXIT_REASON exit_reason
          (write_field VMCS_CTRL_PROCESSOR_BASED_VM_EXECUTION_CONTROLS proc_based
             (vmcs_fields core0)))
       core0).

(** ** The regions as the code stamps them *)

(** The machine once [enter_vmx_operation] has written the head of the
    vmxon region. *)
Definition stamp_vmxon {arch : ia32} (m : machine) : machine :=
  with_this
    (with_vmxon_ {| vmxon_revision_id := vmcs_revision_id (msr m IA32_VMX_BASIC);
                    must_be_zero := 0 |} (this m)) m.

(** The machine once [set_vmcs_pointer] has written the head of the
    vmcs region. *)
Definition stamp_vmcs {arch : ia32} (m : machine) : machine :=
  with_this
    (with_vmcs_ {| revision_id := vmcs_revision_id (msr m IA32_VMX_BASIC);
                   shadow_vmcs_indicator := 0 |} (this m)) m.

(** The vmxon region of [m] carries the revision the processor reports
    in [m], and a zero reserved field. *)
Definition vmxon_stamped {arch : ia32} (m : machine) : Prop :=
  vmxon_revision_id (vmxon_ (this m)) = vmcs_revision_id (msr m IA32_VMX_BASIC) /\
  must_be_zero (vmxon_ (this m)) = 0.

(** The vmcs region of [m] carries the revision the processor reports
    in [m], and a zero shadow indicator. *)
Definition vmcs_stamped {arch : ia32} (m : machine) : Prop :=
  revision_id (vmcs_ (this m)) = vmcs_revision_id (msr m IA32_VMX_BASIC) /\
  shadow_vmcs_indicator (vmcs_ (this m)) = 0.

(** What a successful VMCLEAR does to the machine: the structure it
    clears is no longer the current one. *)
Definition vmcleared (phys : Z) (m : machine) : machine :=
  match current_vmcs m with
  | Some p => if p =? phys then with_current_vmcs None m else m
  | None => m
  end.

(** A run that ends with VMXOFF. *)
Definition ends_with_vmxoff (l : list (machine * event)) : Prop :=
  exists before m2, l = before ++ [(m2, ev_vmxoff)].

(** ** More readers of a run *)

(** The VMCS fields a run wrote, in order. *)
Definition fields_written {A : Type} (o : outcome A) : list vmcs_field :=
  flat_map (fun e => match e with ev_vmwrite f _ => [f] | _ => [] end) (events o).

Definition is_vmwrite (e : event) : bool :=
  match e with ev_vmwrite _ _ => true | _ => false end.

(** The VMX instructions other than field writes. *)
Definition is_vmx_instruction (e : event) : bool :=
  match e with
  | ev_vmxon _ _ | ev_invept _ | ev_vmclear _ _ | ev_vmptrld _ _
  | ev_vmxoff | ev_vm_launch _ => true
  | _ => false
  end.

(** The VMX instructions of a run other than field writes, in order. *)
Definition vmx_instructions {A : Type} (o : outcome A) : list event :=
  filter is_vmx_instruction (events o).

(** No field occurs twice in the list. *)
Fixpoint distinct_fields (l : list vmcs_field) : bool :=
  match l with
  | [] => true
  | f :: l' =>
      negb (existsb (fun g => if vmcs_field_eq_dec f g then true else false) l')
      && distinct_fields l'
  end.

(** The events of the register edit of the feature gate, for the
    control-register values it computes. *)
Definition gate_events (new_cr0 new_cr4 : Z) : list event :=
  [ev_disable; ev_writecr0 new_cr0; ev_writecr4 new_cr4; ev_enable].

(** A computation that leaves everything but the VMCS store as it was. *)
Definition changes_vmcs_only {A : Type} (c : M A) : Prop :=
  forall m, exists s, final (c m) = with_vmcs_fields s m.

(** The switch of [handle_vm_exit] as a table: case label, handler. *)
Definition exit_handler_table {arch : ia32} : list (Z * exit_handler) :=
  [(VMX_EXIT_REASON_MOV_CR, handle_mov_cr);
   (VMX_EXIT_REASON_EXECUTE_CPUID, emulate_cpuid);
   (VMX_EXIT_REASON_EXECUTE_RDMSR, emulate_rdmsr);
   (VMX_EXIT_REASON_EXECUTE_WRMSR, emulate_wrmsr);
   (VMX_EXIT_REASON_EXCEPTION_OR_NMI, handle_exception_or_nmi);
   (VMX_EXIT_REASON_NMI_WINDOW, handle_nmi_window)].

(** * Properties *)

(** ** Bits and words *)

Lemma land_lor_fixed_low (a f0 f1 : Z) :
  Z.land f0 f1 = f0 -> Z.land (Z.land (Z.lor a f0) f1) f0 = f0.
Proof.
  intros H. apply Z.bits_inj'. intros n _.
  assert (Hn : Z.testbit (Z.land f0 f1) n = Z.testbit f0 n) by (now rewrite H).
  rewrite Z.land_spec in Hn.
  rewrite !Z.land_spec, Z.lor_spec.
  destruct (Z.testbit a n), (Z.testbit f0 n), (Z.testbit f1 n); simpl in *; congruence.
Qed.

Lemma land_fixed_high (a f1 : Z) : Z.land (Z.land a f1) f1 = Z.land a f1.
Proof. now rewrite <- Z.land_assoc, Z.land_diag. Qed.

Lemma land_lor_flag (a flg f0 f1 : Z) :
  Z.land flg f1 = flg ->
  Z.land (Z.land (Z.lor (Z.lor a flg) f0) f1) flg = flg.
Proof.
  intros H. apply Z.bits_inj'. intros n _.
  assert (Hn : Z.testbit (Z.land flg f1) n = Z.testbit flg n) by (now rewrite H).
  rewrite Z.land_spec in Hn.
  rewrite !Z.land_spec, !Z.lor_spec.
  destruct (Z.testbit a n), (Z.testbit flg n), (Z.testbit f0 n), (Z.testbit f1 n);
    simpl in *; congruence.
Qed.

Lemma flag_set_flag (flags : Z) (bit : N) : flag (set_flag flags bit) bit = true.
Proof. unfold flag, set_flag. apply Z.setbit_eq. apply N2Z.is_nonneg. Qed.

Lemma testbit_set_flag (flags : Z) (bit : N) (i : Z) :
  i <> Z.of_N bit -> Z.testbit (set_flag flags bit) i = Z.testbit flags i.
Proof.
  intros H. unfold set_flag. apply Z.setbit_neq; [apply N2Z.is_nonneg | congruence].
Qed.

Lemma wrap64_range (z : Z) : 0 <= wrap64 z < 2 ^ 64.
Proof. unfold wrap64. apply Z.mod_pos_bound. lia. Qed.

(** [x & ~0b1111ull] rounds a 64-bit [x] down to a multiple of 16. *)
Lemma land_clear_low4 (x : Z) :
  0 <= x < 2 ^ 64 -> Z.land x 0xFFFFFFFFFFFFFFF0 = 16 * (x / 16).
Proof.
  intros Hx.
  change 0xFFFFFFFFFFFFFFF0 with (Z.shiftl (Z.ones 60) 4).
  replace (16 * (x / 16)) with (Z.shiftl (Z.shiftr x 4) 4)
    by (rewrite Z.shiftl_mul_pow2, Z.shiftr_div_pow2 by lia; change (2 ^ 4) with 16; lia).
  apply Z.bits_inj'. intros n Hn.
  rewrite Z.land_spec.
  rewrite (Z.shiftl_spec (Z.ones 60) 4 n Hn), (Z.shiftl_spec (Z.shiftr x 4) 4 n Hn).
  destruct (Z.ltb_spec n 4) as [Hlt | Hge].
  - rewrite (Z.testbit_neg_r (Z.ones 60)), (Z.testbit_neg_r (Z.shiftr x 4)) by lia.
    apply andb_false_r.
  - rewrite Z.shiftr_spec by lia. replace (n - 4 + 4) with n by lia.
    destruct (Z.ltb_spec n 64) as [Hlo | Hhi].
    + rewrite Z.ones_spec_low by lia. apply andb_true_r.
    + rewrite Z.ones_spec_high by lia. rewrite andb_false_r.
      symmetry. rewrite <- (Z.mod_small x (2 ^ 64)) by lia.
      apply Z.mod_pow2_bits_high. lia.
Qed.

Lemma host_rsp_rounded (a : Z) :
  host_rsp a = wrap64 (16 * (wrap64 (wrap64 a + host_stack_size) / 16) - 8).
Proof. unfold host_rsp. now rewrite land_clear_low4 by apply wrap64_range. Qed.

Lemma host_rsp_mod16 (a : Z) : host_rsp a mod 16 = 8.
Proof.
  rewrite host_rsp_rounded. unfold wrap64.
  generalize (((a mod 2 ^ 64 + host_stack_size) mod 2 ^ 64) / 16). intros q.
  change (2 ^ 64) with 18446744073709551616.
  Z.div_mod_to_equations. lia.
Qed.

Lemma host_rsp_exact (a : Z) :
  0 <= a -> a + host_stack_size < 2 ^ 64 ->
  host_rsp a = 16 * ((a + host_stack_size) / 16) - 8.
Proof.
  intros H0 H1. rewrite host_rsp_rounded. unfold wrap64, host_stack_size in *.
  rewrite (Z.mod_small a) by lia. rewrite (Z.mod_small (a + 24576)) by lia.
  apply Z.mod_small.
  assert (0 <= (a + 24576) mod 16 < 16) by (apply Z.mod_pos_bound; lia).
  pose proof (Z.div_mod (a + 24576) 16 ltac:(lia)). lia.
Qed.

(** ** The VMCS store *)

Lemma write_field_same (f : vmcs_field) (v : Z) (s : vmcs_field -> Z) :
  write_field f v s f = v.
Proof.
  unfold write_field. destruct (vmcs_field_eq_dec f f); [reflexivity | contradiction].
Qed.

Lemma write_field_other (f g : vmcs_field) (v : Z) (s : vmcs_field -> Z) :
  g <> f -> write_field f v s g = s g.
Proof.
  unfold write_field. intros H.
  destruct (vmcs_field_eq_dec g f); [contradiction | reflexivity].
Qed.

(** ** Event lists *)

Lemma ends_with_vmxoff_app (l1 l2 : list (machine * event)) :
  ends_with_vmxoff l2 -> ends_with_vmxoff (l1 ++ l2).
Proof.
  intros (before & m2 & ->). exists (l1 ++ before), m2. apply app_assoc.
Qed.

Lemma ends_with_vmxoff_one (m2 : machine) : ends_with_vmxoff [(m2, ev_vmxoff)].
Proof. now exists [], m2. Qed.

Lemma vmxon_before_vmxoff (l : list (machine * event)) (m1 : machine) (phys : Z) :
  ends_with_vmxoff l -> In (m1, ev_vmxon phys true) l ->
  exists before m2, l = before ++ [(m2, ev_vmxoff)] /\ In (m1, ev_vmxon phys true) before.
Proof.
  intros (before & m2 & ->) H. exists before, m2. split; [reflexivity |].
  apply in_app_or in H. destruct H as [H | H]; [exact H |].
  destruct H as [H | []]. inversion H.
Qed.

(** ** Running a sequence *)

Lemma bind_value {A B : Type} (c : M A) (k : A -> M B) (m : machine) :
  value (bind c k m) = value (k (value (c m)) (final (c m))).
Proof. reflexivity. Qed.

Lemma bind_final {A B : Type} (c : M A) (k : A -> M B) (m : machine) :
  final (bind c k m) = final (k (value (c m)) (final (c m))).
Proof. reflexivity. Qed.

Lemma bind_issued {A B : Type} (c : M A) (k : A -> M B) (m : machine) :
  issued (bind c k m) = issued (c m) ++ issued (k (value (c m)) (final (c m))).
Proof. reflexivity. Qed.

Ltac run_bind :=
  repeat (progress (rewrite ?bind_value, ?bind_issued, ?bind_final;
                    cbn [DbgPrint emit gets modify ret value final issued negb]));
  rewrite ?app_nil_r.

Section Claims.

Context {arch : ia32} {ext : externals}.

(** ** What each step of the bring-up does, in full *)

Lemma outcome_ext {A : Type} (o1 o2 : outcome A) :
  value o1 = value o2 -> final o1 = final o2 -> issued o1 = issued o2 -> o1 = o2.
Proof. destruct o1, o2. cbn. now intros -> -> ->. Qed.


(** The feature gate: nothing at all when a check fails, otherwise the
    four events of the register edit. *)
Lemma enable_vmx_operation_run (m : machine) :
  enable_vmx_operation m =
  if flag (cpuid_feature_information_ecx (cpuid m 1)) virtual_machine_extensions
     && flag (msr m IA32_FEATURE_CONTROL) lock_bit
     && flag (msr m IA32_FEATURE_CONTROL) enable_vmx_outside_smx
  then
    let new_cr0 := Z.land (Z.lor (cr0 m) (msr m IA32_VMX_CR0_FIXED0))
                          (msr m IA32_VMX_CR0_FIXED1) in
    let new_cr4 := Z.land (Z.lor (Z.lor (cr4 m) CR4_VMX_ENABLE_FLAG)
                                 (msr m IA32_VMX_CR4_FIXED0))
                          (msr m IA32_VMX_CR4_FIXED1) in
    let m1 := with_interrupts_enabled false m in
    let m2 := with_cr0 new_cr0 m1 in
    let m3 := with_cr4 new_cr4 m2 in
    {| value := true;
       final := with_interrupts_enabled true m3;
       issued := [(m, ev_disable); (m1, ev_writecr0 new_cr0);
                  (m2, ev_writecr4 new_cr4); (m3, ev_enable)] |}
  else {| value := false; final := m; issued := [] |}.
Proof.
  apply outcome_ext; unfold enable_vmx_operation; cbn;
    (destruct (flag (cpuid_feature_information_ecx (cpuid m 1)) virtual_machine_extensions);
       cbn; [| reflexivity]);
    (destruct (flag (msr m IA32_FEATURE_CONTROL) lock_bit); cbn; [| reflexivity]);
    (destruct (flag (msr m IA32_FEATURE_CONTROL) enable_vmx_outside_smx); cbn; reflexivity).
Qed.

(** Root-mode entry: the region is stamped, the alignment is asserted,
    VMXON is issued, and INVEPT follows when VMXON succeeded. *)
Lemma enter_vmx_operation_run (m : machine) :
  let m1 := stamp_vmxon m in
  let phys := get_physical (addr_vmxon_ (this m)) in
  let ok := vmxon_succeeds m1 phys in
  enter_vmx_operation m =
  {| value := ok;
     final := if ok then with_vmx_root true m1 else m1;
     issued := (if phys mod 0x1000 =? 0 then [] else [(m1, ev_assert_failed)]) ++
               (m1, ev_vmxon phys ok) ::
               (if ok then [(with_vmx_root true m1, ev_invept invept_all_context)]
                else []) |}.
Proof.
  intros m1 phys ok. subst m1 phys ok.
  apply outcome_ext;
    unfold enter_vmx_operation, NT_ASSERT, vmx_vmxon, vmx_invept, set_vmxon_; cbn;
    fold (stamp_vmxon m);
    (destruct (get_physical (addr_vmxon_ (this m)) mod 4096 =? 0); cbn;
     destruct (vmxon_succeeds _ _); reflexivity).
Qed.

(** The VMCS pointer: the region is stamped, the alignment is asserted,
    VMCLEAR is issued, and VMPTRLD follows when VMCLEAR succeeded. *)
Lemma set_vmcs_pointer_run (m : machine) :
  let m1 := stamp_vmcs m in
  let phys := get_physical (addr_vmcs_ (this m)) in
  let ok1 := vmclear_succeeds m1 phys in
  let m2 := vmcleared phys m1 in
  let ok2 := vmptrld_succeeds m2 phys in
  set_vmcs_pointer m =
  {| value := ok1 && ok2;
     final := if ok1 then (if ok2 then with_current_vmcs (Some phys) m2 else m2) else m1;
     issued := (if phys mod 0x1000 =? 0 then [] else [(m1, ev_assert_failed)]) ++
               (m1, ev_vmclear phys ok1) ::
               (if ok1 then [(m2, ev_vmptrld phys ok2)] else []) |}.
Proof.
  intros m1 phys ok1 m2 ok2. subst m1 phys ok1 m2 ok2.
  apply outcome_ext;
    unfold set_vmcs_pointer, NT_ASSERT, vmx_vmclear, vmx_vmptrld, set_vmcs_; cbn;
    fold (stamp_vmcs m);
    (destruct (get_physical (addr_vmcs_ (this m)) mod 4096 =? 0); cbn;
     destruct (vmclear_succeeds _ _); cbn;
     fold (vmcleared (get_physical (addr_vmcs_ (this m))) (stamp_vmcs m));
     try destruct (vmptrld_succeeds _ _); reflexivity).
Qed.

(** ** The feature and mode gate *)

(** C1. [enable_vmx_operation] fails closed: when the CPUID feature bit,
    the lock bit or the VMX-outside-SMX bit is missing it returns false,
    leaves the machine as it was and issues nothing.  When it returns
    true, CR0 is the old CR0 ORed with CR0_FIXED0 and ANDed with
    CR0_FIXED1, CR4 is the old CR4 with the VMX-enable flag, ORed with
    CR4_FIXED0 and ANDed with CR4_FIXED1; on a core that supports VMX
    the VMX-enable flag is then set in CR4 and both registers satisfy
    their fixed-bit masks. *)
Theorem enable_vmx_operation_gate (m : machine) :
  let o := enable_vmx_operation m in
  (flag (cpuid_feature_information_ecx (cpuid m 1)) virtual_machine_extensions = false \/
   flag (msr m IA32_FEATURE_CONTROL) lock_bit = false \/
   flag (msr m IA32_FEATURE_CONTROL) enable_vmx_outside_smx = false ->
   value o = false /\ final o = m /\ issued o = []) /\
  (value o = true ->
   cr0 (final o) =
     Z.land (Z.lor (cr0 m) (msr m IA32_VMX_CR0_FIXED0)) (msr m IA32_VMX_CR0_FIXED1) /\
   cr4 (final o) =
     Z.land (Z.lor (Z.lor (cr4 m) CR4_VMX_ENABLE_FLAG) (msr m IA32_VMX_CR4_FIXED0))
            (msr m IA32_VMX_CR4_FIXED1) /\
   msr (final o) = msr m /\
   (supported_core m ->
    Z.land (cr4 (final o)) CR4_VMX_ENABLE_FLAG = CR4_VMX_ENABLE_FLAG /\
    satisfies_fixed (cr0 (final o))
      (msr (final o) IA32_VMX_CR0_FIXED0) (msr (final o) IA32_VMX_CR0_FIXED1) /\
    satisfies_fixed (cr4 (final o))
      (msr (final o) IA32_VMX_CR4_FIXED0) (msr (final o) IA32_VMX_CR4_FIXED1))).
Proof.
  intros o. subst o. rewrite enable_vmx_operation_run.
  destruct (flag (cpuid_feature_information_ecx (cpuid m 1)) virtual_machine_extensions);
    cbn [andb]; [| split; [auto | discriminate]].
  destruct (flag (msr m IA32_FEATURE_CONTROL) lock_bit);
    cbn [andb]; [| split; [auto | discriminate]].
  destruct (flag (msr m IA32_FEATURE_CONTROL) enable_vmx_outside_smx);
    cbn [andb]; [| split; [auto | discriminate]].
  split; [intros [H | [H | H]]; discriminate H | intros _].
  cbn. repeat (split; [reflexivity |]).
  intros (H0 & H4 & Hf). unfold satisfies_fixed.
  repeat split.
  - now apply land_lor_flag.
  - now apply land_lor_fixed_low.
  - apply land_fixed_high.
  - now apply land_lor_fixed_low.
  - apply land_fixed_high.
Qed.

(** ** Bring-up and rollback *)

(** The feature gate issues no VMXON. *)
Lemma enable_vmx_operation_no_vmxon (m m1 : machine) (phys : Z) (ok : bool) :
  ~ In (m1, ev_vmxon phys ok) (issued (enable_vmx_operation m)).
Proof.
  rewrite enable_vmx_operation_run.
  destruct (_ && _ && _); cbn; [| tauto].
  intros [H | [H | [H | [H | []]]]]; discriminate H.
Qed.

(** When [enter_vmx_operation] returns false, VMXON did not succeed. *)
Lemma enter_vmx_operation_failed (m m1 : machine) (phys : Z) :
  value (enter_vmx_operation m) = false ->
  ~ In (m1, ev_vmxon phys true) (issued (enter_vmx_operation m)).
Proof.
  rewrite enter_vmx_operation_run. cbn.
  destruct (vmxon_succeeds _ _); [discriminate |]. intros _ H.
  apply in_app_or in H. destruct H as [H | [H | []]]; [| discriminate H].
  destruct (_ mod _ =? 0); [contradiction |].
  destruct H as [H | []]. discriminate H.
Qed.

(** Once the gate has let it through, [virtualize] issues VMXON on the
    stamped region. *)
Lemma virtualize_issues_vmxon (m : machine) :
  value (enable_vmx_operation m) = true ->
  let m0 := final (enable_vmx_operation m) in
  let phys := get_physical (addr_vmxon_ (this m0)) in
  In (stamp_vmxon m0, ev_vmxon phys (vmxon_succeeds (stamp_vmxon m0) phys))
     (issued (virtualize m)).
Proof.
  intros Hopen m0 phys. unfold virtualize.
  rewrite bind_issued. apply in_or_app. right.
  rewrite Hopen. cbn [negb].
  rewrite bind_issued. apply in_or_app. right.
  rewrite bind_issued. apply in_or_app. left.
  cbn [DbgPrint emit final]. fold m0.
  rewrite enter_vmx_operation_run. cbn [issued].
  apply in_or_app. right. left. reflexivity.
Qed.

(** C2. Every run of [virtualize] that entered VMX root operation
    (a VMXON that succeeded is among its events) and returns false
    issues VMXOFF after that VMXON, as its last event; and [virtualize]
    returns true only when the launch succeeded. *)
Theorem virtualize_exits_root_operation (m : machine) :
  let o := virtualize m in
  (value o = true -> In (ev_vm_launch true) (events o)) /\
  (value o = false ->
   forall m1 phys, In (m1, ev_vmxon phys true) (issued o) ->
   exists before m2,
     issued o = before ++ [(m2, ev_vmxoff)] /\
     In (m1, ev_vmxon phys true) before /\
     vmx_root (final o) = false).
Proof.
  intros o. subst o.
  unfold virtualize, events, __vm_launch, vmx_vmxoff, vmx_vmread.
  pose proof enable_vmx_operation_no_vmxon as Hgate.
  pose proof enter_vmx_operation_failed as Henter.
  revert Hgate Henter.
  generalize enable_vmx_operation enter_vmx_operation set_vmcs_pointer
    prepare_external_structures write_vmcs_ctrl_fields write_vmcs_host_fields
    write_vmcs_guest_fields.
  intros enable enter setptr prepare ctrl host guest Hgate Henter.
  run_bind.
  specialize (Hgate m).
  destruct (enable m) as [[|] m_1 d1]; run_bind.
  2: { split; [discriminate |]. intros _ m1 phys H. now apply Hgate in H. }
  specialize (Henter m_1).
  destruct (enter m_1) as [[|] m_2 d2]; run_bind.
  2: { split; [discriminate |]. intros _ m1 phys H.
       apply in_app_or in H. destruct H as [H | H].
       - now apply Hgate in H.
       - destruct H as [H | H]; [inversion H |].
         now apply (Henter m1 phys eq_refl) in H. }
  clear Henter Hgate.
  destruct (setptr m_2) as [[|] m_3 d3]; run_bind.
  2: { split; [discriminate |]. intros _ m1 phys H.
       apply vmxon_before_vmxoff in H.
       - destruct H as (before & m2 & E & H). exists before, m2. auto.
       - repeat (apply ends_with_vmxoff_app). apply ends_with_vmxoff_one. }
  destruct (prepare m_3) as [[] m_4 d4]; run_bind.
  destruct (ctrl m_4) as [[] m_5 d5]; run_bind.
  destruct (host m_5) as [[] m_6 d6]; run_bind.
  destruct (guest m_6) as [[] m_7 d7]; run_bind.
  destruct (vm_launch_succeeds m_7); run_bind.
  - split; [intros _ | discriminate].
    rewrite !map_app, !in_app_iff. cbn [map snd In].
    assert (ev_vm_launch true = ev_vm_launch true) by reflexivity. tauto.
  - split; [discriminate |]. intros _ m1 phys H.
    apply vmxon_before_vmxoff in H.
    + destruct H as (before & m2 & E & H). exists before, m2. auto.
    + repeat (apply ends_with_vmxoff_app). apply ends_with_vmxoff_one.
Qed.

(** ** Revision identifiers *)

(** C5. Whenever [enter_vmx_operation] issues VMXON, the vmxon region at
    that moment carries the revision identifier of IA32_VMX_BASIC and a
    zero reserved field; whenever [set_vmcs_pointer] issues VMCLEAR or
    VMPTRLD, the vmcs region at that moment carries that revision and a
    zero shadow indicator.  VMXON and VMCLEAR are issued on every run. *)
Theorem regions_stamped_before_activation (m : machine) :
  (exists at_issue ok,
     In (at_issue, ev_vmxon (get_physical (addr_vmxon_ (this m))) ok)
        (issued (enter_vmx_operation m))) /\
  (forall at_issue phys ok,
     In (at_issue, ev_vmxon phys ok) (issued (enter_vmx_operation m)) ->
     vmxon_stamped at_issue /\
     msr at_issue IA32_VMX_BASIC = msr m IA32_VMX_BASIC) /\
  (exists at_issue ok,
     In (at_issue, ev_vmclear (get_physical (addr_vmcs_ (this m))) ok)
        (issued (set_vmcs_pointer m))) /\
  (forall at_issue phys ok,
     In (at_issue, ev_vmclear phys ok) (issued (set_vmcs_pointer m)) \/
     In (at_issue, ev_vmptrld phys ok) (issued (set_vmcs_pointer m)) ->
     vmcs_stamped at_issue /\
     msr at_issue IA32_VMX_BASIC = msr m IA32_VMX_BASIC).
Proof.
  rewrite enter_vmx_operation_run, set_vmcs_pointer_run. cbn [issued].
  split; [| split; [| split]].
  - eexists; eexists. apply in_or_app. right. left. reflexivity.
  - intros at_issue phys ok H.
    apply in_app_or in H. destruct H as [H | [H | H]].
    + destruct (_ mod _ =? 0); [contradiction |]. destruct H as [H | []]. discriminate H.
    + inversion H; subst. repeat split.
    + destruct (vmxon_succeeds _ _); [destruct H as [H | []]; discriminate H | contradiction].
  - eexists; eexists. apply in_or_app. right. left. reflexivity.
  - intros at_issue phys ok [H | H];
      (apply in_app_or in H; destruct H as [H | [H | H]];
       [ destruct (_ mod _ =? 0); [contradiction |]; destruct H as [H | []]; discriminate H
       | try discriminate H; inversion H; subst; repeat split
       | destruct (vmclear_succeeds _ _);
         [ destruct H as [H | []]; try discriminate H; inversion H; subst
         | contradiction ] ]).
    unfold vmcs_stamped, vmcleared.
    destruct (current_vmcs (stamp_vmcs m)) as [p |]; [destruct (p =? _) |]; repeat split.
Qed.

(** C10. [set_vmcs_pointer] is not atomic: when it returns false,
    VMCLEAR or VMPTRLD reported failure, and the vmcs region it leaves
    behind has been stamped all the same: its revision identifier is
    the one of IA32_VMX_BASIC and its shadow indicator is zero, as they
    already were when VMCLEAR was issued. *)
Theorem set_vmcs_pointer_not_atomic (m : machine) :
  let o := set_vmcs_pointer m in
  let phys := get_physical (addr_vmcs_ (this m)) in
  value o = false ->
  (In (ev_vmclear phys false) (events o) \/ In (ev_vmptrld phys false) (events o)) /\
  vmcs_ (this (final o)) =
    {| revision_id := vmcs_revision_id (msr m IA32_VMX_BASIC);
       shadow_vmcs_indicator := 0 |} /\
  (forall at_issue ok, In (at_issue, ev_vmclear phys ok) (issued o) ->
     vmcs_ (this at_issue) = vmcs_ (this (final o))).
Proof.
  intros o phys. subst o phys. rewrite set_vmcs_pointer_run. unfold events. cbn.
  set (phys := get_physical (addr_vmcs_ (this m))).
  destruct (vmclear_succeeds (stamp_vmcs m) phys) eqn:E1; cbn.
  - destruct (vmptrld_succeeds (vmcleared phys (stamp_vmcs m)) phys) eqn:E2;
      [discriminate |]. intros _.
    assert (Hc : vmcs_ (this (vmcleared phys (stamp_vmcs m))) =
                 vmcs_ (this (stamp_vmcs m))).
    { unfold vmcleared. destruct (current_vmcs _) as [p |]; [destruct (p =? _) |];
        reflexivity. }
    split; [| split].
    + right. rewrite map_app, in_app_iff. right. cbn. auto.
    + rewrite Hc. reflexivity.
    + intros at_issue ok H. rewrite Hc.
      apply in_app_or in H. destruct H as [H | [H | [H | []]]].
      * destruct (_ mod _ =? 0); [contradiction |]. destruct H as [H | []]. discriminate H.
      * inversion H. reflexivity.
      * discriminate H.
  - intros _. split; [| split].
    + left. rewrite map_app, in_app_iff. right. cbn. auto.
    + reflexivity.
    + intros at_issue ok H.
      apply in_app_or in H. destruct H as [H | [H | []]].
      * destruct (_ mod _ =? 0); [contradiction |]. destruct H as [H | []]. discriminate H.
      * inversion H. reflexivity.
Qed.

(** ** Field programming *)

(** C6. The value [write_vmcs_host_fields] writes to the host-RSP field
    is the top of the host stack, rounded down to a multiple of 16,
    minus 8 (in 64-bit arithmetic; exactly so when the stack lies
    within the address space), and it is congruent to 8 modulo 16 for
    every address of the host stack. *)
Theorem host_rsp_written (m : machine) :
  let a := addr_host_stack_ (this m) in
  let o := write_vmcs_host_fields m in
  vmwrites_to VMCS_HOST_RSP o = [host_rsp a] /\
  vmcs_fields (final o) VMCS_HOST_RSP = host_rsp a /\
  host_rsp a = wrap64 (16 * (wrap64 (wrap64 a + host_stack_size) / 16) - 8) /\
  host_rsp a mod 16 = 8 /\
  (0 <= a -> a + host_stack_size < 2 ^ 64 ->
   host_rsp a = 16 * ((a + host_stack_size) / 16) - 8).
Proof.
  intros a o. split; [| split; [| split; [| split]]].
  - reflexivity.
  - reflexivity.
  - apply host_rsp_rounded.
  - apply host_rsp_mod16.
  - apply host_rsp_exact.
Qed.

(** C7. Whatever the machine, and so whatever selectors are loaded in
    its segment registers, [write_vmcs_guest_fields] writes the guest
    selector fields once each, with the constants CS=0x10, SS=0x18,
    DS=0x2B, ES=0x2B, FS=0x53, GS=0x2B, TR=0x40, LDTR=0x00, and those are
    the values the fields hold afterwards. *)
Theorem guest_selectors_hardcoded (m : machine) :
  let o := write_vmcs_guest_fields m in
  (vmwrites_to VMCS_GUEST_CS_SELECTOR o = [0x10] /\
   vmwrites_to VMCS_GUEST_SS_SELECTOR o = [0x18] /\
   vmwrites_to VMCS_GUEST_DS_SELECTOR o = [0x2B] /\
   vmwrites_to VMCS_GUEST_ES_SELECTOR o = [0x2B] /\
   vmwrites_to VMCS_GUEST_FS_SELECTOR o = [0x53] /\
   vmwrites_to VMCS_GUEST_GS_SELECTOR o = [0x2B] /\
   vmwrites_to VMCS_GUEST_TR_SELECTOR o = [0x40] /\
   vmwrites_to VMCS_GUEST_LDTR_SELECTOR o = [0x00]) /\
  (vmcs_fields (final o) VMCS_GUEST_CS_SELECTOR = 0x10 /\
   vmcs_fields (final o) VMCS_GUEST_SS_SELECTOR = 0x18 /\
   vmcs_fields (final o) VMCS_GUEST_DS_SELECTOR = 0x2B /\
   vmcs_fields (final o) VMCS_GUEST_ES_SELECTOR = 0x2B /\
   vmcs_fields (final o) VMCS_GUEST_FS_SELECTOR = 0x53 /\
   vmcs_fields (final o) VMCS_GUEST_GS_SELECTOR = 0x2B /\
   vmcs_fields (final o) VMCS_GUEST_TR_SELECTOR = 0x40 /\
   vmcs_fields (final o) VMCS_GUEST_LDTR_SELECTOR = 0x00) /\
  selector (final o) = selector m.
Proof.
  intros o. repeat split; reflexivity.
Qed.

(** ** The exit dispatcher *)

(** The default branch of the dispatcher, in full. *)
Lemma handle_vm_exit_default (ctx : guest_context) (m : machine) :
  ~ In (exit_reason_of m) routed_exit_reasons ->
  handle_vm_exit ctx m =
    {| value := ctx; final := m;
       issued := [(m, ev_debugbreak);
                  (m, ev_DbgPrint "[hv] vm-exit occurred. RIP=0x%zX.\n"
                        [vmcs_fields m VMCS_GUEST_RIP])] |}.
Proof.
  unfold exit_reason_of, routed_exit_reasons, handle_vm_exit, bind. cbn. intros H.
  repeat match goal with
  | |- context [?a =? ?b] =>
      let E := fresh "E" in
      destruct (Z.eqb_spec a b) as [E | E]; [exfalso; apply H; rewrite <- E; tauto |]
  end.
  reflexivity.
Qed.

(** A routed reason runs its handler on the context and the machine. *)
Lemma handle_vm_exit_routed (ctx : guest_context) (m : machine) :
  NoDup routed_exit_reasons ->
  In (exit_reason_of m) routed_exit_reasons ->
  exists h,
    handle_vm_exit ctx m = call_exit_handler h ctx m /\
    (exit_reason_of m = VMX_EXIT_REASON_MOV_CR -> h = handle_mov_cr) /\
    (exit_reason_of m = VMX_EXIT_REASON_EXECUTE_CPUID -> h = emulate_cpuid) /\
    (exit_reason_of m = VMX_EXIT_REASON_EXECUTE_RDMSR -> h = emulate_rdmsr) /\
    (exit_reason_of m = VMX_EXIT_REASON_EXECUTE_WRMSR -> h = emulate_wrmsr) /\
    (exit_reason_of m = VMX_EXIT_REASON_EXCEPTION_OR_NMI -> h = handle_exception_or_nmi) /\
    (exit_reason_of m = VMX_EXIT_REASON_NMI_WINDOW -> h = handle_nmi_window).
Proof.
  intros Hnd Hin. unfold handle_vm_exit, bind. cbn. fold (exit_reason_of m).
  unfold routed_exit_reasons in Hnd, Hin.
  repeat match type of Hnd with
  | NoDup (_ :: _) =>
      let H1 := fresh "Hn" in apply NoDup_cons_iff in Hnd; destruct Hnd as [H1 Hnd]
  end.
  cbn in *.
  repeat match goal with
  | |- context [exit_reason_of m =? ?b] => destruct (Z.eqb_spec (exit_reason_of m) b)
  end;
  try (eexists; split; [reflexivity |]; repeat split; intros; try reflexivity;
       exfalso; subst; intuition congruence).
  exfalso. intuition congruence.
Qed.

(** C3. With the six case labels pairwise distinct, [handle_vm_exit]
    calls exactly the handler of the basic exit reason it reads: CR
    move, CPUID, RDMSR, WRMSR, exception or NMI, NMI window; for one of
    these six reasons it calls exactly one handler and does not reach
    the default branch, and for any other reason it calls none and
    reaches the default branch, which raises the breakpoint. *)
Theorem handle_vm_exit_routes (ctx : guest_context) (m : machine) :
  NoDup routed_exit_reasons ->
  let reason := exit_reason_of m in
  let o := handle_vm_exit ctx m in
  (reason = VMX_EXIT_REASON_MOV_CR -> handlers_called o = [handle_mov_cr]) /\
  (reason = VMX_EXIT_REASON_EXECUTE_CPUID -> handlers_called o = [emulate_cpuid]) /\
  (reason = VMX_EXIT_REASON_EXECUTE_RDMSR -> handlers_called o = [emulate_rdmsr]) /\
  (reason = VMX_EXIT_REASON_EXECUTE_WRMSR -> handlers_called o = [emulate_wrmsr]) /\
  (reason = VMX_EXIT_REASON_EXCEPTION_OR_NMI ->
   handlers_called o = [handle_exception_or_nmi]) /\
  (reason = VMX_EXIT_REASON_NMI_WINDOW -> handlers_called o = [handle_nmi_window]) /\
  (In reason routed_exit_reasons -> List.length (handlers_called o) = 1%nat) /\
  (~ In reason routed_exit_reasons -> handlers_called o = []) /\
  (In ev_debugbreak (events o) <-> ~ In reason routed_exit_reasons).
Proof.
  intros Hnd reason o.
  destruct (in_dec Z.eq_dec reason routed_exit_reasons) as [Hin | Hout].
  2: { subst o. rewrite (handle_vm_exit_default ctx m Hout).
       unfold routed_exit_reasons in Hout. cbn in Hout.
       repeat split; try (intros E; exfalso; apply Hout; rewrite <- E; tauto);
         try reflexivity; try tauto.
       intros _. cbn. auto. }
  destruct (handle_vm_exit_routed ctx m Hnd Hin) as (h & Ho & H1 & H2 & H3 & H4 & H5 & H6).
  assert (Hc : handlers_called o = [h]) by (subst o; rewrite Ho; reflexivity).
  assert (Hb : ~ In ev_debugbreak (events o)).
  { subst o. rewrite Ho. cbn. intros [H | []]. discriminate H. }
  rewrite Hc.
  repeat split; try (intros E; f_equal; auto); try tauto.
Qed.

(** C9. For an exit reason outside the six routed ones, [handle_vm_exit]
    returns the guest context it was given, leaves the machine as it
    was, and does nothing but raise the breakpoint and log the guest
    RIP. *)
Theorem handle_vm_exit_default_keeps_context (ctx : guest_context) (m : machine) :
  ~ In (exit_reason_of m) routed_exit_reasons ->
  value (handle_vm_exit ctx m) = ctx /\
  final (handle_vm_exit ctx m) = m /\
  events (handle_vm_exit ctx m) =
    [ev_debugbreak;
     ev_DbgPrint "[hv] vm-exit occurred. RIP=0x%zX.\n" [vmcs_fields m VMCS_GUEST_RIP]].
Proof.
  intros H. rewrite (handle_vm_exit_default ctx m H). repeat split.
Qed.

(** ** The host interrupt bridge *)

(** C4. For a trap frame with the NMI vector, the processor-based
    controls read after [handle_host_interrupt] have NMI-window exiting
    set, whatever they were before; for any other vector the call
    changes nothing and issues nothing. *)
Theorem handle_host_interrupt_nmi_window (frame : trap_frame) (m : machine) :
  let o := handle_host_interrupt frame m in
  (vector frame = nmi ->
   flag (value (read_ctrl_proc_based (final o))) nmi_window_exiting = true) /\
  (vector frame <> nmi -> final o = m /\ issued o = []).
Proof.
  intros o. subst o. unfold handle_host_interrupt.
  destruct (Z.eqb_spec (vector frame) nmi) as [E | E].
  - split; [intros _ | contradiction].
    cbn. rewrite ?write_field_same. apply flag_set_flag.
  - split; [contradiction | intros _]. split; reflexivity.
Qed.

(** C8. For a trap frame with the NMI vector, every bit of the
    processor-based controls other than NMI-window exiting is after
    [handle_host_interrupt] what it was before. *)
Theorem handle_host_interrupt_frame_bits (frame : trap_frame) (m : machine) (i : Z) :
  vector frame = nmi ->
  i <> Z.of_N nmi_window_exiting ->
  Z.testbit (value (read_ctrl_proc_based (final (handle_host_interrupt frame m)))) i =
  Z.testbit (value (read_ctrl_proc_based m)) i.
Proof.
  intros Hv Hi. unfold handle_host_interrupt. rewrite Hv, Z.eqb_refl.
  cbn. rewrite ?write_field_same. now apply testbit_set_flag.
Qed.

End Claims.

(** ** The theorems at work on [core0] *)

Lemma sdm_exit_reasons_distinct : NoDup (routed_exit_reasons (arch := sdm)).
Proof.
  unfold routed_exit_reasons. cbn.
  repeat (apply NoDup_cons; [cbn; intros H; repeat (destruct H as [H | H]; try discriminate H);
                             contradiction |]).
  apply NoDup_nil.
Qed.

Lemma enable_vmx_operation_gate_witness :
  (value (enable_vmx_operation (arch := sdm) core_locked_off) = false /\
   final (enable_vmx_operation (arch := sdm) core_locked_off) = core_locked_off) /\
  (cr0 (final (enable_vmx_operation (arch := sdm) core0)) = 0x80050033 /\
   cr4 (final (enable_vmx_operation (arch := sdm) core0)) = 0x372678 /\
   Z.land (cr4 (final (enable_vmx_operation (arch := sdm) core0))) 0x2000 = 0x2000).
Proof.
  split.
  - destruct (enable_vmx_operation_gate (arch := sdm) core_locked_off) as [Hclosed _].
    destruct Hclosed as (Hv & Hf & _); [right; right; vm_compute; reflexivity |].
    split; assumption.
  - destruct (enable_vmx_operation_gate (arch := sdm) core0) as [_ Hopen].
    destruct Hopen as (H0 & H4 & _ & Hs); [vm_compute; reflexivity |].
    destruct Hs as (Hvmxe & _); [repeat split; vm_compute; reflexivity |].
    split; [rewrite H0; vm_compute; reflexivity |].
    split; [rewrite H4; vm_compute; reflexivity | exact Hvmxe].
Defined.

Lemma virtualize_exits_root_operation_witness :
  In (ev_vm_launch true)
     (events (virtualize (arch := sdm) (ext := lab true true true true) core0)) /\
  exists before m2,
    issued (virtualize (arch := sdm) (ext := lab true true true false) core0) =
      before ++ [(m2, ev_vmxoff)] /\
    In (stamp_vmxon (arch := sdm)
          (final (enable_vmx_operation (arch := sdm) core0)),
        ev_vmxon 0x12340000 true) before.
Proof.
  split.
  - destruct (virtualize_exits_root_operation (arch := sdm) (ext := lab true true true true)
                core0) as [Hok _].
    apply Hok. vm_compute. reflexivity.
  - destruct (virtualize_exits_root_operation (arch := sdm) (ext := lab true true true false)
                core0) as [_ Hfail].
    destruct (Hfail eq_refl
                (stamp_vmxon (arch := sdm) (final (enable_vmx_operation (arch := sdm) core0)))
                0x12340000) as (before & m2 & E & Hin & _).
    + exact (virtualize_issues_vmxon (arch := sdm) (ext := lab true true true false)
               core0 eq_refl).
    + exists before, m2. split; assumption.
Defined.

Lemma handle_vm_exit_routes_witness :
  handlers_called
    (handle_vm_exit (arch := sdm) (ext := lab true true true true) 7 (core0_exited 10 0))
  = [emulate_cpuid].
Proof.
  destruct (handle_vm_exit_routes (arch := sdm) (ext := lab true true true true)
              7 (core0_exited 10 0) sdm_exit_reasons_distinct)
    as (_ & Hcpuid & _).
  apply Hcpuid. reflexivity.
Defined.

Lemma handle_host_interrupt_nmi_window_witness :
  flag (value (read_ctrl_proc_based
                 (final (handle_host_interrupt (arch := sdm) (ext := lab true true true true)
                           2 (core0_exited 0 0x84006172)))))
       22 = true /\
  final (handle_host_interrupt (arch := sdm) (ext := lab true true true true)
           3 (core0_exited 0 0x84006172)) = core0_exited 0 0x84006172.
Proof.
  split.
  - destruct (handle_host_interrupt_nmi_window (arch := sdm) (ext := lab true true true true)
                2 (core0_exited 0 0x84006172)) as [Hnmi _].
    apply Hnmi. reflexivity.
  - destruct (handle_host_interrupt_nmi_window (arch := sdm) (ext := lab true true true true)
                3 (core0_exited 0 0x84006172)) as [_ Hother].
    apply Hother. cbn. discriminate.
Defined.

Lemma regions_stamped_before_activation_witness :
  exists at_issue ok,
    In (at_issue, ev_vmxon 0x12340000 ok)
       (issued (enter_vmx_operation (arch := sdm) (ext := lab true true true true) core0)) /\
    vmxon_ (this at_issue) = {| vmxon_revision_id := 4; must_be_zero := 0 |} /\
    vmxon_ (this core0) = {| vmxon_revision_id := 0; must_be_zero := 1 |}.
Proof.
  destruct (regions_stamped_before_activation (arch := sdm) (ext := lab true true true true)
              core0) as ((at_issue & ok & Hin) & Hon & _).
  exists at_issue, ok. split; [exact Hin |].
  destruct (Hon at_issue _ ok Hin) as ((Hrev & Hzero) & Hmsr).
  split; [| reflexivity].
  destruct (vmxon_ (this at_issue)) as [rev mbz]. cbn in Hrev, Hzero.
  rewrite Hrev, Hzero, Hmsr. reflexivity.
Defined.

Lemma host_rsp_written_witness :
  vmwrites_to VMCS_HOST_RSP
    (write_vmcs_host_fields (arch := sdm) (ext := lab true true true true) core0)
  = [0xFFFF800012348FF8] /\
  host_rsp 0xFFFF800012343000 = 16 * ((0xFFFF800012343000 + host_stack_size) / 16) - 8.
Proof.
  destruct (host_rsp_written (arch := sdm) (ext := lab true true true true) core0)
    as (Hw & _ & _ & _ & Hexact).
  split.
  - rewrite Hw. vm_compute. reflexivity.
  - apply Hexact; vm_compute; [discriminate | reflexivity].
Defined.

Lemma handle_host_interrupt_frame_bits_witness :
  Z.testbit (value (read_ctrl_proc_based
                      (final (handle_host_interrupt (arch := sdm)
                                (ext := lab true true true true)
                                2 (core0_exited 0 0x84006172))))) 28 =
  Z.testbit (value (read_ctrl_proc_based (core0_exited 0 0x84006172))) 28.
Proof.
  apply (handle_host_interrupt_frame_bits (arch := sdm) (ext := lab true true true true)
           2 (core0_exited 0 0x84006172) 28).
  - reflexivity.
  - cbn. discriminate.
Defined.

Lemma handle_vm_exit_default_keeps_context_witness :
  value (handle_vm_exit (arch := sdm) (ext := lab true true true true)
           7 (core0_exited 48 0)) = 7.
Proof.
  apply (handle_vm_exit_default_keeps_context (arch := sdm)
           (ext := lab true true true true) 7 (core0_exited 48 0)).
  vm_compute. intros H.
  repeat (destruct H as [H | H]; [discriminate H |]). exact H.
Defined.

Lemma set_vmcs_pointer_not_atomic_witness :
  vmcs_ (this core0) = {| revision_id := 0; shadow_vmcs_indicator := 1 |} /\
  value (set_vmcs_pointer (arch := sdm) (ext := lab true false true true) core0) = false /\
  vmcs_ (this (final (set_vmcs_pointer (arch := sdm) (ext := lab true false true true)
                        core0)))
  = {| revision_id := 4; shadow_vmcs_indicator := 0 |}.
Proof.
  split; [reflexivity |]. split; [reflexivity |].
  destruct (set_vmcs_pointer_not_atomic (arch := sdm) (ext := lab true false true true)
              core0 eq_refl) as (_ & Hregion & _).
  rewrite Hregion. vm_compute. reflexivity.
Defined.

(** ** Further properties of the bring-up *)

Lemma lor_land_idem (a f0 f1 : Z) :
  Z.land (Z.lor (Z.land (Z.lor a f0) f1) f0) f1 = Z.land (Z.lor a f0) f1.
Proof.
  apply Z.bits_inj'. intros n _.
  rewrite !Z.land_spec, !Z.lor_spec, !Z.land_spec, !Z.lor_spec.
  destruct (Z.testbit a n), (Z.testbit f0 n), (Z.testbit f1 n); reflexivity.
Qed.

Lemma lor_lor_land_idem (a flg f0 f1 : Z) :
  Z.land (Z.lor (Z.lor (Z.land (Z.lor (Z.lor a flg) f0) f1) flg) f0) f1 =
  Z.land (Z.lor (Z.lor a flg) f0) f1.
Proof.
  apply Z.bits_inj'. intros n _.
  repeat rewrite ?Z.land_spec, ?Z.lor_spec.
  destruct (Z.testbit a n), (Z.testbit flg n), (Z.testbit f0 n), (Z.testbit f1 n);
    reflexivity.
Qed.

Lemma distinct_fields_NoDup (l : list vmcs_field) :
  distinct_fields l = true -> NoDup l.
Proof.
  induction l as [| f l IH]; cbn; intros H; [apply NoDup_nil |].
  apply andb_true_iff in H. destruct H as [Hf Hl].
  apply NoDup_cons; [| now apply IH].
  intros Hin. apply negb_true_iff in Hf.
  assert (Ht : existsb (fun g => if vmcs_field_eq_dec f g then true else false) l = true).
  { apply existsb_exists. exists f. split; [exact Hin |].
    destruct (vmcs_field_eq_dec f f); [reflexivity | contradiction]. }
  congruence.
Qed.

Section Extras.

Context {arch : ia32} {ext : externals}.

(** X1. [enable_vmx_operation] returns true exactly when CPUID reports
    the virtual-machine extensions and the feature-control register has
    both the lock bit and VMX-outside-SMX set. *)
Theorem enable_vmx_operation_true_iff (m : machine) :
  value (enable_vmx_operation m) = true <->
  flag (cpuid_feature_information_ecx (cpuid m 1)) virtual_machine_extensions = true /\
  flag (msr m IA32_FEATURE_CONTROL) lock_bit = true /\
  flag (msr m IA32_FEATURE_CONTROL) enable_vmx_outside_smx = true.
Proof.
  rewrite enable_vmx_operation_run.
  destruct (flag (cpuid_feature_information_ecx (cpuid m 1)) virtual_machine_extensions),
           (flag (msr m IA32_FEATURE_CONTROL) lock_bit),
           (flag (msr m IA32_FEATURE_CONTROL) enable_vmx_outside_smx); cbn;
    intuition discriminate.
Qed.

(** X2. When [enable_vmx_operation] succeeds it issues, in this order,
    the disabling of interrupts, the write to CR0, the write to CR4 and
    the enabling of interrupts, and nothing else; both register writes
    are issued with interrupts disabled; and interrupts are enabled when
    it returns, also when they were disabled when it was called. *)
Theorem enable_vmx_operation_critical_section (m : machine) :
  let o := enable_vmx_operation m in
  value o = true ->
  events o = gate_events (cr0 (final o)) (cr4 (final o)) /\
  (forall at_issue v,
     In (at_issue, ev_writecr0 v) (issued o) \/ In (at_issue, ev_writecr4 v) (issued o) ->
     interrupts_enabled at_issue = false) /\
  interrupts_enabled (final o) = true.
Proof.
  intros o. subst o. rewrite enable_vmx_operation_run.
  destruct (_ && _ && _); [intros _ | discriminate].
  cbn. split; [reflexivity |]. split; [| reflexivity].
  intros at_issue v [H | H];
    repeat (destruct H as [H | H]; [inversion H; subst; reflexivity || discriminate |]);
    contradiction.
Qed.

(** X3. Running the feature gate a second time changes neither CR0 nor
    CR4: the fixed-bit adjustment is idempotent. *)
Theorem enable_vmx_operation_idempotent (m : machine) :
  let m1 := final (enable_vmx_operation m) in
  let m2 := final (enable_vmx_operation m1) in
  cr0 m2 = cr0 m1 /\ cr4 m2 = cr4 m1 /\
  value (enable_vmx_operation m1) = value (enable_vmx_operation m).
Proof.
  cbv zeta. rewrite !enable_vmx_operation_run.
  destruct (flag (cpuid_feature_information_ecx (cpuid m 1)) virtual_machine_extensions) eqn:E1;
  destruct (flag (msr m IA32_FEATURE_CONTROL) lock_bit) eqn:E2;
  destruct (flag (msr m IA32_FEATURE_CONTROL) enable_vmx_outside_smx) eqn:E3;
  cbn; rewrite ?E1, ?E2, ?E3; cbn; repeat split.
  - apply lor_land_idem.
  - apply lor_lor_land_idem.
Qed.

End Extras.

Section Extras2.

Context {arch : ia32} {ext : externals}.



(** X6. [set_vmcs_pointer] returns true exactly when VMCLEAR and VMPTRLD
    both succeeded.  VMPTRLD is issued only after a VMCLEAR that
    succeeded, on the same physical address; after a VMCLEAR that
    failed no VMPTRLD is issued at all. *)
Theorem set_vmcs_pointer_clear_then_load (m : machine) :
  let o := set_vmcs_pointer m in
  let phys := get_physical (addr_vmcs_ (this m)) in
  (value o = true <->
   In (ev_vmclear phys true) (events o) /\ In (ev_vmptrld phys true) (events o)) /\
  (forall p ok, In (ev_vmptrld p ok) (events o) ->
     p = phys /\
     exists pre post, events o = pre ++ ev_vmclear phys true :: post /\
                      In (ev_vmptrld p ok) post) /\
  (In (ev_vmclear phys false) (events o) ->
   forall p ok, ~ In (ev_vmptrld p ok) (events o)).
Proof.
  intros o phys. subst o phys. rewrite set_vmcs_pointer_run. unfold events. cbn [issued value].
  set (phys := get_physical (addr_vmcs_ (this m))).
  set (pre := if phys mod 4096 =? 0 then [] else [(stamp_vmcs m, ev_assert_failed)]).
  assert (Hpre : forall e, In e (map snd pre) -> e = ev_assert_failed).
  { subst pre. destruct (_ =? 0); cbn; intros e H;
      [contradiction | destruct H as [H | []]; now subst]. }
  rewrite map_app. cbn [map snd].
  destruct (vmclear_succeeds (stamp_vmcs m) phys) eqn:E1; cbn [andb map snd].
  - split; [| split].
    + destruct (vmptrld_succeeds _ _) eqn:E2.
      * split; [intros _ | reflexivity].
        split; apply in_or_app; right; cbn; auto.
      * split; [discriminate |]. intros [_ H].
        apply in_app_or in H. destruct H as [H | H].
        -- apply Hpre in H. discriminate H.
        -- cbn in H. repeat (destruct H as [H | H]; try discriminate H). contradiction.
    + intros p ok H. apply in_app_or in H. destruct H as [H | H].
      * apply Hpre in H. discriminate H.
      * destruct H as [H | [H | []]]; [discriminate H |].
        inversion H; subst. split; [reflexivity |].
        exists (map snd pre), [ev_vmptrld phys (vmptrld_succeeds (vmcleared phys (stamp_vmcs m)) phys)].
        split; [reflexivity | left; reflexivity].
    + intros H. apply in_app_or in H. destruct H as [H | H].
      * apply Hpre in H. discriminate H.
      * cbn in H. repeat (destruct H as [H | H]; try discriminate H). contradiction.
  - split; [| split].
    + split; [discriminate |]. intros [H _].
      apply in_app_or in H. destruct H as [H | H].
      * apply Hpre in H. discriminate H.
      * cbn in H. repeat (destruct H as [H | H]; try discriminate H). contradiction.
    + intros p ok H. apply in_app_or in H. destruct H as [H | H].
      * apply Hpre in H. discriminate H.
      * cbn in H. repeat (destruct H as [H | H]; try discriminate H). contradiction.
    + intros _ p ok H. apply in_app_or in H. destruct H as [H | H].
      * apply Hpre in H. discriminate H.
      * cbn in H. repeat (destruct H as [H | H]; try discriminate H). contradiction.
Qed.

(** X7. The two region functions do not disturb each other: after
    [enter_vmx_operation] followed by [set_vmcs_pointer], whatever the
    instructions reported, the vmxon region and the vmcs region both
    carry the revision identifier of IA32_VMX_BASIC, the reserved field
    and the shadow indicator are zero, and nothing else of the object
    has changed. *)
Theorem regions_stamped_alike (m : machine) :
  let m2 := final (set_vmcs_pointer (final (enter_vmx_operation m))) in
  vmxon_stamped m2 /\ vmcs_stamped m2 /\
  vmxon_revision_id (vmxon_ (this m2)) = revision_id (vmcs_ (this m2)) /\
  this m2 =
    with_vmcs_ {| revision_id := vmcs_revision_id (msr m IA32_VMX_BASIC);
                  shadow_vmcs_indicator := 0 |}
      (with_vmxon_ {| vmxon_revision_id := vmcs_revision_id (msr m IA32_VMX_BASIC);
                      must_be_zero := 0 |} (this m)).
Proof.
  cbv zeta. rewrite set_vmcs_pointer_run, enter_vmx_operation_run. cbn [final].
  unfold vmxon_stamped, vmcs_stamped, vmcleared.
  destruct (vmxon_succeeds _ _); cbn [final];
    destruct (vmclear_succeeds _ _);
    try destruct (vmptrld_succeeds _ _);
    repeat match goal with
    | |- context [match current_vmcs ?x with _ => _ end] => destruct (current_vmcs x)
    | |- context [if ?p =? ?q then _ else _] => destruct (p =? q)
    end; repeat split.
Qed.

End Extras2.

(** ** Further properties of field programming *)

(** The bits of a word built by setting one-bit fields from zero. *)
Lemma testbit_set_flag_iff (flags : Z) (bit : N) (i : Z) :
  Z.testbit (set_flag flags bit) i = true <->
  i = Z.of_N bit \/ Z.testbit flags i = true.
Proof.
  unfold set_flag. rewrite Z.setbit_eqb by apply N2Z.is_nonneg.
  rewrite orb_true_iff, Z.eqb_eq. intuition congruence.
Qed.

Lemma testbit_zero_iff (i : Z) : Z.testbit 0 i = true <-> False.
Proof. rewrite Z.bits_0. split; [discriminate | contradiction]. Qed.

Lemma host_rsp_in_stack (a : Z) :
  0 <= a -> a + host_stack_size < 2 ^ 64 ->
  a + host_stack_size - 24 < host_rsp a <= a + host_stack_size - 8.
Proof.
  intros H0 H1. rewrite (host_rsp_exact a H0 H1). unfold host_stack_size in *.
  assert (0 <= (a + 24576) mod 16 < 16) by (apply Z.mod_pos_bound; lia).
  pose proof (Z.div_mod (a + 24576) 16 ltac:(lia)). lia.
Qed.

Section Extras3.

Context {arch : ia32} {ext : externals}.

(** X8. [prepare_external_structures] zeroes every byte of the MSR
    bitmap and of the host TSS, keeping their sizes, replaces the host
    IDT and GDT by what the builders return, the GDT builder being given
    the address of the host TSS and called after the IDT builder, and
    changes nothing else: not the two regions, not the addresses, not
    the processor, and it issues no VMX instruction and no field
    write. *)
Theorem prepare_external_structures_effect (m : machine) :
  let o := prepare_external_structures m in
  let obj := this (final o) in
  Forall (fun b => b = 0) (msr_bitmap_ obj) /\
  List.length (msr_bitmap_ obj) = List.length (msr_bitmap_ (this m)) /\
  Forall (fun b => b = 0) (host_tss_ obj) /\
  List.length (host_tss_ obj) = List.length (host_tss_ (this m)) /\
  host_idt_ obj = prepare_host_idt (host_idt_ (this m)) /\
  host_gdt_ obj = prepare_host_gdt (host_gdt_ (this m)) (addr_host_tss_ (this m)) /\
  events o = [ev_prepare_host_idt; ev_prepare_host_gdt (addr_host_tss_ (this m))] /\
  final o =
    with_this
      (with_host_gdt_ (host_gdt_ obj)
         (with_host_idt_ (host_idt_ obj)
            (with_host_tss_ (host_tss_ obj)
               (with_msr_bitmap_ (msr_bitmap_ obj) (this m))))) m.
Proof.
  intros o obj. subst o obj. unfold prepare_external_structures, set_this, memset0. cbn.
  repeat split.
  - apply Forall_forall. intros b H. apply in_map_iff in H. now destruct H as (_ & <- & _).
  - apply length_map.
  - apply Forall_forall. intros b H. apply in_map_iff in H. now destruct H as (_ & <- & _).
  - apply length_map.
Qed.

(** X9. After [write_vmcs_ctrl_fields] the MSR-bitmap address field
    holds the physical address of the object's MSR bitmap, and the
    exception bitmap, the page-fault error-code mask and match, the
    CR0/CR4 guest/host masks and read shadows, the CR3-target count and
    values, the MSR store/load counts and addresses of VM exit and VM
    entry, and the three VM-entry injection fields all hold zero. *)
Theorem write_vmcs_ctrl_fields_zeroes (m : machine) :
  let s := vmcs_fields (final (write_vmcs_ctrl_fields m)) in
  s VMCS_CTRL_MSR_BITMAP_ADDRESS = get_physical (addr_msr_bitmap_ (this m)) /\
  Forall (fun f => s f = 0)
    [VMCS_CTRL_EXCEPTION_BITMAP;
     VMCS_CTRL_PAGEFAULT_ERROR_CODE_MASK; VMCS_CTRL_PAGEFAULT_ERROR_CODE_MATCH;
     VMCS_CTRL_CR4_GUEST_HOST_MASK; VMCS_CTRL_CR4_READ_SHADOW;
     VMCS_CTRL_CR0_GUEST_HOST_MASK; VMCS_CTRL_CR0_READ_SHADOW;
     VMCS_CTRL_CR3_TARGET_COUNT;
     VMCS_CTRL_CR3_TARGET_VALUE_0; VMCS_CTRL_CR3_TARGET_VALUE_1;
     VMCS_CTRL_CR3_TARGET_VALUE_2; VMCS_CTRL_CR3_TARGET_VALUE_3;
     VMCS_CTRL_VMEXIT_MSR_STORE_COUNT; VMCS_CTRL_VMEXIT_MSR_STORE_ADDRESS;
     VMCS_CTRL_VMEXIT_MSR_LOAD_COUNT; VMCS_CTRL_VMEXIT_MSR_LOAD_ADDRESS;
     VMCS_CTRL_VMENTRY_MSR_LOAD_COUNT; VMCS_CTRL_VMENTRY_MSR_LOAD_ADDRESS;
     VMCS_CTRL_VMENTRY_INTERRUPTION_INFORMATION_FIELD;
     VMCS_CTRL_VMENTRY_EXCEPTION_ERROR_CODE;
     VMCS_CTRL_VMENTRY_INSTRUCTION_LENGTH].
Proof.
  intros s. subst s. split; [reflexivity |].
  repeat (apply Forall_cons; [reflexivity |]). apply Forall_nil.
Qed.

(** X10. The control words [write_vmcs_ctrl_fields] asks for, before
    the capability adjustment: the pin-based word has exactly the bits
    virtual-NMI and NMI-exiting; the processor-based word exactly
    use-MSR-bitmaps and activate-secondary-controls, and in a build
    without NDEBUG also CR3-load and CR3-store exiting; the secondary
    word exactly RDTSCP, INVPCID, XSAVES, user wait/pause and
    conceal-VMX-from-PT; the exit word exactly save-debug-controls,
    host-address-space-size and conceal-VMX-from-PT; the entry word
    exactly load-debug-controls, IA-32e-mode-guest and
    conceal-VMX-from-PT. *)
Theorem write_vmcs_ctrl_fields_requests (m : machine) :
  let o := write_vmcs_ctrl_fields m in
  exists pin proc proc2 exit_ entry m1 m2 m3 m4,
    vmwrites_to VMCS_CTRL_PIN_BASED_VM_EXECUTION_CONTROLS o = [adjust_pin_based m pin] /\
    vmwrites_to VMCS_CTRL_PROCESSOR_BASED_VM_EXECUTION_CONTROLS o =
      [adjust_proc_based m1 proc] /\
    vmwrites_to VMCS_CTRL_SECONDARY_PROCESSOR_BASED_VM_EXECUTION_CONTROLS o =
      [adjust_proc_based2 m2 proc2] /\
    vmwrites_to VMCS_CTRL_VMEXIT_CONTROLS o = [adjust_exit m3 exit_] /\
    vmwrites_to VMCS_CTRL_VMENTRY_CONTROLS o = [adjust_entry m4 entry] /\
    (forall i, Z.testbit pin i = true <->
       i = Z.of_N virtual_nmi \/ i = Z.of_N nmi_exiting) /\
    (forall i, Z.testbit proc i = true <->
       i = Z.of_N use_msr_bitmaps \/ i = Z.of_N activate_secondary_controls \/
       (NDEBUG = false /\ (i = Z.of_N cr3_load_exiting \/ i = Z.of_N cr3_store_exiting))) /\
    (forall i, Z.testbit proc2 i = true <->
       i = Z.of_N enable_rdtscp \/ i = Z.of_N enable_invpcid \/ i = Z.of_N enable_xsaves \/
       i = Z.of_N enable_user_wait_pause \/ i = Z.of_N procbased2_conceal_vmx_from_pt) /\
    (forall i, Z.testbit exit_ i = true <->
       i = Z.of_N save_debug_controls \/ i = Z.of_N host_address_space_size \/
       i = Z.of_N exit_conceal_vmx_from_pt) /\
    (forall i, Z.testbit entry i = true <->
       i = Z.of_N load_debug_controls \/ i = Z.of_N ia32e_mode_guest \/
       i = Z.of_N entry_conceal_vmx_from_pt).
Proof.
  intros o. subst o. unfold write_vmcs_ctrl_fields, vmwrites_to, events. cbv zeta.
  do 5 rewrite bind_issued.
  set (pin := set_flag (set_flag 0 virtual_nmi) nmi_exiting).
  set (proc := set_flag (set_flag
                 (if NDEBUG then 0
                  else set_flag (set_flag 0 cr3_load_exiting) cr3_store_exiting)
                 use_msr_bitmaps) activate_secondary_controls).
  set (proc2 := set_flag (set_flag (set_flag (set_flag (set_flag 0
                  enable_rdtscp) enable_invpcid) enable_xsaves)
                  enable_user_wait_pause) procbased2_conceal_vmx_from_pt).
  set (exit_ := set_flag (set_flag (set_flag 0
                  save_debug_controls) host_address_space_size) exit_conceal_vmx_from_pt).
  set (entry := set_flag (set_flag (set_flag 0
                  load_debug_controls) ia32e_mode_guest) entry_conceal_vmx_from_pt).
  set (m1 := final (write_ctrl_pin_based_safe pin m)).
  set (m2 := final (write_ctrl_proc_based_safe proc m1)).
  set (m3 := final (write_ctrl_proc_based2_safe proc2 m2)).
  set (m4 := final (write_ctrl_exit_safe exit_ m3)).
  set (m5 := final (write_ctrl_entry_safe entry m4)).
  exists pin, proc, proc2, exit_, entry, m1, m2, m3, m4.
  clearbody m5 m4 m3 m2 m1.
  rewrite !map_app, !flat_map_app.
  split; [reflexivity |]. split; [reflexivity |]. split; [reflexivity |].
  split; [reflexivity |]. split; [reflexivity |].
  subst pin proc proc2 exit_ entry.
  split; [| split; [| split; [| split]]]; intros i;
    try (destruct NDEBUG);
    rewrite !testbit_set_flag_iff, testbit_zero_iff;
    try tauto.
  intuition discriminate.
Qed.

(** X11. No VMCS field is written twice by the three field-programming
    functions together: each of them writes every one of its fields
    once, and their sets of fields are pairwise disjoint, so no phase
    overwrites what another one programmed. *)
Theorem field_programming_writes_once (m1 m2 m3 : machine) :
  NoDup (fields_written (write_vmcs_ctrl_fields m1) ++
         fields_written (write_vmcs_host_fields m2) ++
         fields_written (write_vmcs_guest_fields m3)) /\
  List.length (fields_written (write_vmcs_ctrl_fields m1)) = 27%nat /\
  List.length (fields_written (write_vmcs_host_fields m2)) = 20%nat /\
  List.length (fields_written (write_vmcs_guest_fields m3)) = 51%nat.
Proof.
  split; [| repeat split; reflexivity].
  apply distinct_fields_NoDup. vm_compute. reflexivity.
Qed.

End Extras3.

Lemma with_vmcs_fields_twice (s0 s1 : vmcs_field -> Z) (m : machine) :
  with_vmcs_fields s1 (with_vmcs_fields s0 m) = with_vmcs_fields s1 m.
Proof. reflexivity. Qed.

Section Extras4.

Context {arch : ia32} {ext : externals}.

(** Closure of [changes_vmcs_only] under the constructs the
    field-programming functions are made of. *)
Lemma changes_vmcs_only_ret {A : Type} (a : A) : changes_vmcs_only (ret a).
Proof. intros m. exists (vmcs_fields m). now destruct m. Qed.

Lemma changes_vmcs_only_gets {A : Type} (f : machine -> A) : changes_vmcs_only (gets f).
Proof. intros m. exists (vmcs_fields m). now destruct m. Qed.

Lemma changes_vmcs_only_vmwrite (f : vmcs_field) (v : Z) :
  changes_vmcs_only (vmx_vmwrite f v).
Proof. intros m. eexists. reflexivity. Qed.

Lemma changes_vmcs_only_bind {A B : Type} (c : M A) (k : A -> M B) :
  changes_vmcs_only c -> (forall a, changes_vmcs_only (k a)) ->
  changes_vmcs_only (bind c k).
Proof.
  intros Hc Hk m. rewrite bind_final.
  destruct (Hc m) as [s1 E1]. destruct (Hk (value (c m)) (final (c m))) as [s2 E2].
  exists s2. rewrite E2, E1. reflexivity.
Qed.

Lemma changes_vmcs_only_frame {A : Type} (c : M A) (m : machine) :
  changes_vmcs_only c ->
  final (c m) = with_vmcs_fields (vmcs_fields (final (c m))) m.
Proof. intros H. destruct (H m) as [s E]. rewrite E. reflexivity. Qed.

Ltac solve_changes_vmcs_only :=
  repeat lazymatch goal with
  | |- changes_vmcs_only (vmx_vmwrite _ _) => apply changes_vmcs_only_vmwrite
  | |- changes_vmcs_only (bind _ _) => apply changes_vmcs_only_bind; [| intros ?]
  | |- changes_vmcs_only (gets _) => apply changes_vmcs_only_gets
  | |- changes_vmcs_only (ret _) => apply changes_vmcs_only_ret
  end.

(** X12. The host state that is programmed matches the structures
    that were prepared: after [prepare_external_structures],
    [write_vmcs_ctrl_fields] and [write_vmcs_host_fields], run in this
    order as [virtualize] does, the host TR base is the very TSS
    address that was handed to the GDT builder, the host GDTR and IDTR
    bases are the addresses of the tables the builders filled, the
    MSR-bitmap address is the physical address of the bitmap that was
    zeroed, and the host CS and TR selectors are those of vcpu.h while
    the SS, DS, ES, FS and GS selectors are null. *)
Theorem host_state_matches_prepared_structures (m : machine) :
  let o := (prepare_external_structures ;; write_vmcs_ctrl_fields ;;
            write_vmcs_host_fields) m in
  let s := vmcs_fields (final o) in
  let obj := this (final o) in
  In (ev_prepare_host_gdt (s VMCS_HOST_TR_BASE)) (events o) /\
  host_gdt_ obj = prepare_host_gdt (host_gdt_ (this m)) (s VMCS_HOST_TR_BASE) /\
  s VMCS_HOST_TR_BASE = addr_host_tss_ obj /\
  s VMCS_HOST_GDTR_BASE = addr_host_gdt_ obj /\
  s VMCS_HOST_IDTR_BASE = addr_host_idt_ obj /\
  s VMCS_CTRL_MSR_BITMAP_ADDRESS = get_physical (addr_msr_bitmap_ obj) /\
  Forall (fun b => b = 0) (msr_bitmap_ obj) /\
  s VMCS_HOST_CS_SELECTOR = selector_flags host_cs_selector /\
  s VMCS_HOST_TR_SELECTOR = selector_flags host_tr_selector /\
  Forall (fun f => s f = 0)
    [VMCS_HOST_SS_SELECTOR; VMCS_HOST_DS_SELECTOR; VMCS_HOST_ES_SELECTOR;
     VMCS_HOST_FS_SELECTOR; VMCS_HOST_GS_SELECTOR].
Proof.
  intros o s obj. subst o s obj.
  split; [right; left; reflexivity |].
  do 5 (split; [reflexivity |]).
  split.
  { apply Forall_forall. intros b H.
    change (In b (memset0 (msr_bitmap_ (this m)))) in H.
    unfold memset0 in H. apply in_map_iff in H. now destruct H as (_ & <- & _). }
  do 2 (split; [reflexivity |]).
  repeat (apply Forall_cons; [reflexivity |]). apply Forall_nil.
Qed.

(** X13. The guest segment state is consistent with the selectors that
    are written: for CS, SS, DS, ES, TR and LDTR the base, the limit
    and the access rights are those of the very selector stored in the
    selector field (looked up in the current GDT), and for FS and GS the
    limit and access rights are, while the base is taken from
    IA32_FS_BASE and IA32_GS_BASE. *)
Theorem guest_segments_follow_selectors (m : machine) :
  let s := vmcs_fields (final (write_vmcs_guest_fields m)) in
  Forall (fun '(sel, base, lim, ar) =>
            s base = segment_base (gdtr m) (s sel) /\
            s lim = segmentlimit m (s sel) /\
            s ar = segment_access (gdtr m) (s sel))
    [(VMCS_GUEST_CS_SELECTOR, VMCS_GUEST_CS_BASE, VMCS_GUEST_CS_LIMIT,
      VMCS_GUEST_CS_ACCESS_RIGHTS);
     (VMCS_GUEST_SS_SELECTOR, VMCS_GUEST_SS_BASE, VMCS_GUEST_SS_LIMIT,
      VMCS_GUEST_SS_ACCESS_RIGHTS);
     (VMCS_GUEST_DS_SELECTOR, VMCS_GUEST_DS_BASE, VMCS_GUEST_DS_LIMIT,
      VMCS_GUEST_DS_ACCESS_RIGHTS);
     (VMCS_GUEST_ES_SELECTOR, VMCS_GUEST_ES_BASE, VMCS_GUEST_ES_LIMIT,
      VMCS_GUEST_ES_ACCESS_RIGHTS);
     (VMCS_GUEST_TR_SELECTOR, VMCS_GUEST_TR_BASE, VMCS_GUEST_TR_LIMIT,
      VMCS_GUEST_TR_ACCESS_RIGHTS);
     (VMCS_GUEST_LDTR_SELECTOR, VMCS_GUEST_LDTR_BASE, VMCS_GUEST_LDTR_LIMIT,
      VMCS_GUEST_LDTR_ACCESS_RIGHTS)] /\
  Forall (fun '(sel, lim, ar) =>
            s lim = segmentlimit m (s sel) /\
            s ar = segment_access (gdtr m) (s sel))
    [(VMCS_GUEST_FS_SELECTOR, VMCS_GUEST_FS_LIMIT, VMCS_GUEST_FS_ACCESS_RIGHTS);
     (VMCS_GUEST_GS_SELECTOR, VMCS_GUEST_GS_LIMIT, VMCS_GUEST_GS_ACCESS_RIGHTS)] /\
  s VMCS_GUEST_FS_BASE = msr m IA32_FS_BASE /\
  s VMCS_GUEST_GS_BASE = msr m IA32_GS_BASE.
Proof.
  intros s. subst s.
  split; [| split; [| split; reflexivity]].
  - repeat (apply Forall_cons; [repeat split; reflexivity |]). apply Forall_nil.
  - repeat (apply Forall_cons; [repeat split; reflexivity |]). apply Forall_nil.
Qed.

(** X14. The three field-programming functions issue field writes and
    nothing else, and change nothing of the machine but the VMCS: the
    registers, the VMX mode and the object are as before. *)
Theorem field_programming_frame (m : machine) :
  (let o := write_vmcs_ctrl_fields m in
   forallb is_vmwrite (events o) = true /\
   final o = with_vmcs_fields (vmcs_fields (final o)) m) /\
  (let o := write_vmcs_host_fields m in
   forallb is_vmwrite (events o) = true /\
   final o = with_vmcs_fields (vmcs_fields (final o)) m) /\
  (let o := write_vmcs_guest_fields m in
   forallb is_vmwrite (events o) = true /\
   final o = with_vmcs_fields (vmcs_fields (final o)) m).
Proof.
  split; [| split]; (split; [reflexivity | apply changes_vmcs_only_frame]).
  - unfold write_vmcs_ctrl_fields, write_ctrl_pin_based_safe, write_ctrl_proc_based_safe,
      write_ctrl_proc_based2_safe, write_ctrl_exit_safe, write_ctrl_entry_safe.
    cbv zeta. solve_changes_vmcs_only.
  - unfold write_vmcs_host_fields, __readcr0, __readcr3, __readcr4. solve_changes_vmcs_only.
  - unfold write_vmcs_guest_fields, __readcr0, __readcr3, __readcr4, __readdr7,
      __readeflags, __readmsr, _sgdt, __sidt, __segmentlimit. solve_changes_vmcs_only.
Qed.


(** X16. When the host stack lies within the address space, the host
    RSP that is programmed points into the stack, 8 to 23 bytes below
    its top; for a stack that starts on a 16-byte boundary, as the
    page-aligned member does, it is exactly 8 bytes below the top. *)
Theorem host_rsp_within_stack (m : machine) :
  let a := addr_host_stack_ (this m) in
  let rsp := vmcs_fields (final (write_vmcs_host_fields m)) VMCS_HOST_RSP in
  0 <= a -> a + host_stack_size < 2 ^ 64 ->
  a <= rsp < a + host_stack_size /\
  a + host_stack_size - 24 < rsp <= a + host_stack_size - 8 /\
  (a mod 16 = 0 -> rsp = a + host_stack_size - 8).
Proof.
  intros a rsp H0 H1.
  assert (E : rsp = host_rsp a) by reflexivity. rewrite E. clear E rsp.
  pose proof (host_rsp_in_stack a H0 H1) as Hin.
  split; [unfold host_stack_size in *; lia |]. split; [exact Hin |].
  intros Ha. rewrite (host_rsp_exact a H0 H1). unfold host_stack_size in *.
  pose proof (Z.div_mod a 16 ltac:(lia)) as Hd. rewrite Ha in Hd.
  replace (a + 24576) with ((a / 16 + 1536) * 16) by lia.
  rewrite Z.div_mul by lia. lia.
Qed.

End Extras4.

(** ** Further properties of [virtualize] *)

Lemma vmwrites_are_no_vmx_instruction (l : list event) :
  forallb is_vmwrite l = true -> filter is_vmx_instruction l = [].
Proof.
  induction l as [| e l IH]; cbn; [reflexivity |].
  intros H. apply andb_true_iff in H. destruct H as [He Hl].
  destruct e; try discriminate He. cbn. now apply IH.
Qed.

(** In a list that starts with a part free of [P], an element with [P]
    is found only after that part. *)
Lemma split_after_prefix {X : Type} (P : X -> Prop) (A B pre post : list X) (x : X) :
  (forall y, In y A -> ~ P y) -> P x ->
  A ++ B = pre ++ x :: post -> exists pre', pre = A ++ pre'.
Proof.
  revert pre. induction A as [| a A IH]; intros pre HA Hx E.
  - now exists pre.
  - destruct pre as [| p pre].
    + cbn in E. injection E as -> _. exfalso. apply (HA x); [now left | exact Hx].
    + cbn in E. injection E as -> E.
      destruct (IH pre) as [pre' ->]; [intros y Hy; apply HA; now right | exact Hx | exact E |].
      now exists pre'.
Qed.

Section Extras5.

Context {arch : ia32} {ext : externals}.

Lemma enable_vmx_operation_quiet (m : machine) :
  vmx_instructions (enable_vmx_operation m) = [] /\
  (forall e, In e (events (enable_vmx_operation m)) -> is_vmwrite e = false) /\
  this (final (enable_vmx_operation m)) = this m.
Proof.
  rewrite enable_vmx_operation_run. destruct (_ && _ && _); cbn.
  - repeat split. intros e H. repeat (destruct H as [H | H]; [now subst |]). contradiction.
  - repeat split. contradiction.
Qed.

Lemma enter_vmx_operation_instructions (m : machine) :
  (value (enter_vmx_operation m) = true ->
   vmx_instructions (enter_vmx_operation m) =
     [ev_vmxon (get_physical (addr_vmxon_ (this m))) true;
      ev_invept invept_all_context]) /\
  (forall e, In e (events (enter_vmx_operation m)) -> is_vmwrite e = false) /\
  addr_vmcs_ (this (final (enter_vmx_operation m))) = addr_vmcs_ (this m).
Proof.
  rewrite enter_vmx_operation_run. unfold vmx_instructions, events. cbn.
  rewrite map_app, filter_app.
  destruct (vmxon_succeeds _ _); destruct (_ mod _ =? 0); cbn; repeat split;
    try discriminate;
    intros e H; repeat (destruct H as [H | H]; [now subst |]); contradiction.
Qed.

Lemma set_vmcs_pointer_instructions (m : machine) :
  (value (set_vmcs_pointer m) = true ->
   vmx_instructions (set_vmcs_pointer m) =
     [ev_vmclear (get_physical (addr_vmcs_ (this m))) true;
      ev_vmptrld (get_physical (addr_vmcs_ (this m))) true]) /\
  (forall e, In e (events (set_vmcs_pointer m)) -> is_vmwrite e = false).
Proof.
  rewrite set_vmcs_pointer_run. unfold vmx_instructions, events. cbn.
  rewrite map_app, filter_app.
  destruct (vmclear_succeeds _ _); [destruct (vmptrld_succeeds _ _) |];
    destruct (_ mod _ =? 0); cbn; repeat split;
    try discriminate;
    intros e H; repeat (destruct H as [H | H]; [now subst |]); contradiction.
Qed.

Lemma prepare_external_structures_quiet (m : machine) :
  vmx_instructions (prepare_external_structures m) = [] /\
  (forall e, In e (events (prepare_external_structures m)) -> is_vmwrite e = false).
Proof.
  split; [reflexivity |]. intros e H. cbn in H.
  repeat (destruct H as [H | H]; [now subst |]). contradiction.
Qed.

Lemma field_programming_quiet (m : machine) :
  vmx_instructions (write_vmcs_ctrl_fields m) = [] /\
  vmx_instructions (write_vmcs_host_fields m) = [] /\
  vmx_instructions (write_vmcs_guest_fields m) = [].
Proof.
  repeat split; apply vmwrites_are_no_vmx_instruction; reflexivity.
Qed.

(** X17. When the feature gate is closed, [virtualize] returns false
    without having done anything: the machine is the one it started
    from and no event has been issued, so no VMX instruction either. *)
Theorem virtualize_gate_closed (m : machine) :
  flag (cpuid_feature_information_ecx (cpuid m 1)) virtual_machine_extensions = false \/
  flag (msr m IA32_FEATURE_CONTROL) lock_bit = false \/
  flag (msr m IA32_FEATURE_CONTROL) enable_vmx_outside_smx = false ->
  value (virtualize m) = false /\ final (virtualize m) = m /\ issued (virtualize m) = [].
Proof.
  intros H. unfold virtualize. rewrite bind_value, bind_final, bind_issued.
  rewrite enable_vmx_operation_run.
  assert (E : flag (cpuid_feature_information_ecx (cpuid m 1)) virtual_machine_extensions
              && flag (msr m IA32_FEATURE_CONTROL) lock_bit
              && flag (msr m IA32_FEATURE_CONTROL) enable_vmx_outside_smx = false).
  { destruct H as [-> | [-> | ->]]; rewrite ?andb_false_r; reflexivity. }
  rewrite E. cbn. repeat split.
Qed.

(** X18. When the gate is open and VMXON fails, [virtualize] returns
    false right after VMXON: it issues no VMCLEAR, no VMPTRLD, no field
    write, no launch and no VMXOFF, and it does not undo the feature
    gate: CR0 and CR4 stay as [enable_vmx_operation] set them. *)
Theorem virtualize_vmxon_fails (m : machine) :
  let m0 := final (enable_vmx_operation m) in
  value (enable_vmx_operation m) = true ->
  value (enter_vmx_operation m0) = false ->
  value (virtualize m) = false /\
  vmx_instructions (virtualize m) =
    [ev_vmxon (get_physical (addr_vmxon_ (this m))) false] /\
  (forall e, In e (events (virtualize m)) -> is_vmwrite e = false) /\
  cr0 (final (virtualize m)) = cr0 m0 /\
  cr4 (final (virtualize m)) = cr4 m0 /\
  vmx_root (final (virtualize m)) = vmx_root m.
Proof.
  intros m0 Hgate Hfail.
  unfold virtualize, vmx_instructions, events.
  rewrite bind_value, bind_final, bind_issued, Hgate. cbn [negb].
  rewrite bind_value, bind_final, bind_issued.
  rewrite bind_value, bind_final, bind_issued.
  cbn [DbgPrint emit value final issued]. fold m0. rewrite Hfail. cbn [negb ret value final issued].
  destruct (enable_vmx_operation_quiet m) as (Hq & Hw & Hthis). fold m0 in Hthis.
  unfold vmx_instructions, events in Hq, Hw.
  revert Hfail. rewrite enter_vmx_operation_run. cbn [value final issued]. intros Hfail.
  rewrite Hfail. rewrite app_nil_r, !map_app, !filter_app, Hq, Hthis.
  split; [reflexivity |]. split; [| split; [| repeat split]].
  - destruct (_ mod _ =? 0); reflexivity.
  - intros e H. rewrite !in_app_iff in H. destruct H as [H | [H | [H | H]]].
    + now apply Hw.
    + destruct H as [<- | []]. reflexivity.
    + destruct (_ mod _ =? 0); [contradiction |]. destruct H as [<- | []]. reflexivity.
    + destruct H as [<- | []]. reflexivity.
  - subst m0. rewrite enable_vmx_operation_run in *. destruct (_ && _ && _); [| discriminate].
    reflexivity.
Qed.

(** X19. When [virtualize] returns true, the VMX instructions it has
    issued, field writes apart, are exactly VMXON on the vmxon region,
    INVEPT of all contexts, VMCLEAR and VMPTRLD on the vmcs region, and
    the launch, in this order and all successful; in particular no
    VMXOFF is issued on the way to a successful launch. *)
Theorem virtualize_success_sequence (m : machine) :
  value (virtualize m) = true ->
  vmx_instructions (virtualize m) =
    [ev_vmxon (get_physical (addr_vmxon_ (this m))) true;
     ev_invept invept_all_context;
     ev_vmclear (get_physical (addr_vmcs_ (this m))) true;
     ev_vmptrld (get_physical (addr_vmcs_ (this m))) true;
     ev_vm_launch true].
Proof.
  unfold virtualize, vmx_instructions, events, __vm_launch, vmx_vmxoff, vmx_vmread.
  pose proof enable_vmx_operation_quiet as Hen.
  pose proof enter_vmx_operation_instructions as Hent.
  pose proof set_vmcs_pointer_instructions as Hset.
  pose proof prepare_external_structures_quiet as Hprep.
  pose proof field_programming_quiet as Hfld.
  unfold vmx_instructions, events in Hen, Hent, Hset, Hprep, Hfld.
  revert Hen Hent Hset Hprep Hfld.
  generalize enable_vmx_operation enter_vmx_operation set_vmcs_pointer
    prepare_external_structures write_vmcs_ctrl_fields write_vmcs_host_fields
    write_vmcs_guest_fields.
  intros enable enter setptr prepare ctrl host guest Hen Hent Hset Hprep Hfld.
  run_bind.
  destruct (Hen m) as (Hen1 & _ & Hthis1).
  destruct (enable m) as [[|] m_1 d1]; run_bind; [| discriminate].
  destruct (Hent m_1) as (Hent1 & _ & Hthis2).
  destruct (enter m_1) as [[|] m_2 d2]; run_bind; [| discriminate].
  destruct (Hset m_2) as (Hset1 & _).
  destruct (setptr m_2) as [[|] m_3 d3]; run_bind; [| discriminate].
  destruct (Hprep m_3) as (Hprep1 & _).
  destruct (prepare m_3) as [[] m_4 d4]; run_bind.
  destruct (Hfld m_4) as (Hctrl & _).
  destruct (ctrl m_4) as [[] m_5 d5]; run_bind.
  destruct (Hfld m_5) as (_ & Hhost & _).
  destruct (host m_5) as [[] m_6 d6]; run_bind.
  destruct (Hfld m_6) as (_ & _ & Hguest).
  destruct (guest m_6) as [[] m_7 d7]; run_bind.
  cbn [value final issued] in *.
  destruct (vm_launch_succeeds m_7); run_bind; [intros _ | discriminate].
  rewrite !map_app, !filter_app.
  rewrite Hen1, (Hent1 eq_refl), (Hset1 eq_refl), Hprep1, Hctrl, Hhost, Hguest.
  rewrite Hthis1, Hthis2, Hthis1. reflexivity.
Qed.

(** X20. [virtualize] writes no VMCS field before a VMPTRLD has
    succeeded: whatever event of a run is a field write, a successful
    VMPTRLD is among the events before it. *)
Theorem virtualize_writes_after_vmptrld (m : machine) (pre post : list event)
    (f : vmcs_field) (v : Z) :
  events (virtualize m) = pre ++ ev_vmwrite f v :: post ->
  exists p, In (ev_vmptrld p true) pre.
Proof.
  unfold virtualize, events, __vm_launch, vmx_vmxoff, vmx_vmread.
  pose proof enable_vmx_operation_quiet as Hen.
  pose proof enter_vmx_operation_instructions as Hent.
  pose proof set_vmcs_pointer_instructions as Hset.
  pose proof prepare_external_structures_quiet as Hprep.
  unfold vmx_instructions, events in Hen, Hent, Hset, Hprep.
  revert Hen Hent Hset Hprep.
  generalize enable_vmx_operation enter_vmx_operation set_vmcs_pointer
    prepare_external_structures write_vmcs_ctrl_fields write_vmcs_host_fields
    write_vmcs_guest_fields.
  intros enable enter setptr prepare ctrl host guest Hen Hent Hset Hprep.
  run_bind.
  destruct (Hen m) as (_ & Hw1 & _).
  destruct (enable m) as [ok1 m_1 d1]. cbn [value final issued] in *.
  assert (Hnone : forall l : list event,
            (forall e, In e l -> is_vmwrite e = false) ->
            l = pre ++ ev_vmwrite f v :: post -> False).
  { intros l Hl E. specialize (Hl (ev_vmwrite f v)). rewrite E in Hl.
    discriminate Hl. apply in_or_app. right. now left. }
  destruct ok1; run_bind.
  2: { intros E. exfalso. exact (Hnone _ Hw1 E). }
  destruct (Hent m_1) as (_ & Hw2 & _).
  destruct (enter m_1) as [ok2 m_2 d2]. cbn [value final issued] in *.
  destruct ok2; run_bind.
  2: { intros E. exfalso. apply (Hnone _) in E; [exact E |].
       intros e H. rewrite !map_app, !in_app_iff in H. destruct H as [H | [H | H]]; auto.
       destruct H as [<- | []]. reflexivity. }
  destruct (Hset m_2) as (Hi3 & Hw3).
  destruct (setptr m_2) as [ok3 m_3 d3]. cbn [value final issued] in *.
  destruct ok3; run_bind.
  2: { intros E. exfalso. apply (Hnone _) in E; [exact E |].
       intros e H. rewrite !map_app, !in_app_iff in H.
       destruct H as [H | [H | [H | [H | [H | H]]]]]; auto;
         destruct H as [<- | []]; reflexivity. }
  destruct (Hprep m_3) as (_ & Hw4).
  destruct (prepare m_3) as [[] m_4 d4]. cbn [value final issued] in *. run_bind.
  set (tail := issued (ctrl m_4) ++ _).
  intros E. rewrite !map_app in E. cbn [map snd] in E.
  set (head := map snd d1 ++ [ev_DbgPrint "[hv] enabled vmx operation.\n" []] ++
               map snd d2 ++ [ev_DbgPrint "[hv] entered vmx operation.\n" []] ++
               map snd d3 ++ [ev_DbgPrint "[hv] set vmcs pointer.\n" []] ++
               map snd d4 ++
               [ev_DbgPrint "[hv] initialized external host structures.\n" []]).
  assert (E' : head ++ map snd tail = pre ++ ev_vmwrite f v :: post).
  { rewrite <- E. subst head. rewrite <- !app_assoc. reflexivity. }
  apply (split_after_prefix (fun e => is_vmwrite e = true)) in E'.
  - destruct E' as [pre' ->].
    exists (get_physical (addr_vmcs_ (this m_2))).
    apply in_or_app. left. subst head.
    rewrite !in_app_iff. do 4 right. left.
    assert (Hin : In (ev_vmptrld (get_physical (addr_vmcs_ (this m_2))) true)
                     (filter is_vmx_instruction (map snd d3))).
    { rewrite (Hi3 eq_refl). right. now left. }
    apply filter_In in Hin. tauto.
  - intros e H. subst head. rewrite !in_app_iff in H.
    assert (Hd : forall s, is_vmwrite (ev_DbgPrint s []) <> true) by (intros s; discriminate).
    destruct H as [H | [H | [H | [H | [H | [H | [H | H]]]]]]];
      try (destruct H as [<- | []]; apply Hd);
      [ rewrite (Hw1 e H) | rewrite (Hw2 e H) | rewrite (Hw3 e H) | rewrite (Hw4 e H) ];
      discriminate.
  - reflexivity.
Qed.

End Extras5.

(** ** Further properties of the run-time entry points *)

Lemma set_flag_twice (flags : Z) (bit : N) :
  set_flag (set_flag flags bit) bit = set_flag flags bit.
Proof.
  apply Z.bits_inj'. intros n _.
  destruct (Z.testbit (set_flag flags bit) n) eqn:E.
  - apply testbit_set_flag_iff. now right.
  - destruct (Z.testbit (set_flag (set_flag flags bit) bit) n) eqn:E'; [| reflexivity].
    apply testbit_set_flag_iff in E'. destruct E' as [-> | E']; [| congruence].
    rewrite <- E. symmetry. apply flag_set_flag.
Qed.

Section Extras6.

Context {arch : ia32} {ext : externals}.

(** X21. For a routed exit reason, [handle_vm_exit] is the call of the
    handler: the context it returns and the machine it leaves are the
    handler's, run on the context and machine [handle_vm_exit] was
    given, and the call is its only event (no breakpoint, no log). *)
Theorem handle_vm_exit_runs_handler (ctx : guest_context) (m : machine)
    (code : Z) (h : exit_handler) :
  NoDup routed_exit_reasons ->
  In (code, h) exit_handler_table ->
  exit_reason_of m = code ->
  let o := handle_vm_exit ctx m in
  value o = fst (run_exit_handler h ctx m) /\
  final o = snd (run_exit_handler h ctx m) /\
  issued o = [(m, ev_exit_handler h)].
Proof.
  intros Hnd Hin Hcode o.
  assert (Hr : In (exit_reason_of m) routed_exit_reasons).
  { rewrite Hcode. unfold exit_handler_table in Hin. unfold routed_exit_reasons. cbn in *.
    repeat (destruct Hin as [Hin | Hin]; [injection Hin as <- _; tauto |]). contradiction. }
  destruct (handle_vm_exit_routed ctx m Hnd Hr) as (h' & Ho & H1 & H2 & H3 & H4 & H5 & H6).
  assert (Hh : h' = h).
  { unfold exit_handler_table in Hin. cbn in Hin.
    repeat (destruct Hin as [Hin | Hin];
            [injection Hin as <- <-; auto |]). contradiction. }
  subst o h'. rewrite Ho. repeat split.
Qed.

(** X22. For the NMI vector, [handle_host_interrupt] issues one field
    write, to the processor-based controls, of the old control word
    with NMI-window exiting set; every other VMCS field keeps its
    value, and the registers, the VMX mode and the object are not
    touched. *)
Theorem handle_host_interrupt_nmi_frame (frame : trap_frame) (m : machine) :
  vector frame = nmi ->
  let o := handle_host_interrupt frame m in
  let old := vmcs_fields m VMCS_CTRL_PROCESSOR_BASED_VM_EXECUTION_CONTROLS in
  issued o =
    [(m, ev_vmwrite VMCS_CTRL_PROCESSOR_BASED_VM_EXECUTION_CONTROLS
           (set_flag old nmi_window_exiting))] /\
  (forall g, g <> VMCS_CTRL_PROCESSOR_BASED_VM_EXECUTION_CONTROLS ->
     vmcs_fields (final o) g = vmcs_fields m g) /\
  final o = with_vmcs_fields (vmcs_fields (final o)) m.
Proof.
  intros Hv o old. subst o old. unfold handle_host_interrupt. rewrite Hv, Z.eqb_refl.
  split; [reflexivity |]. split; [| reflexivity].
  intros g Hg. cbn. now apply write_field_other.
Qed.

(** X23. [handle_host_interrupt] is idempotent: a second call with the
    same frame leaves every VMCS field, and the rest of the machine, as
    the first call left them. *)
Theorem handle_host_interrupt_idempotent (frame : trap_frame) (m : machine) :
  let m1 := final (handle_host_interrupt frame m) in
  let m2 := final (handle_host_interrupt frame m1) in
  (forall g, vmcs_fields m2 g = vmcs_fields m1 g) /\
  m2 = with_vmcs_fields (vmcs_fields m2) m1.
Proof.
  cbv zeta. unfold handle_host_interrupt.
  destruct (vector frame =? nmi); [| split; [reflexivity | now destruct m]].
  split; [| reflexivity].
  intros g. cbn.
  destruct (vmcs_field_eq_dec g VMCS_CTRL_PROCESSOR_BASED_VM_EXECUTION_CONTROLS) as [-> | Hg].
  - rewrite !write_field_same. apply set_flag_twice.
  - now rewrite !write_field_other by exact Hg.
Qed.

End Extras6.

(** ** The further properties at work on [core0] *)

Lemma enable_vmx_operation_true_iff_witness :
  value (enable_vmx_operation (arch := sdm) core0) = true /\
  value (enable_vmx_operation (arch := sdm) core_locked_off) = false.
Proof.
  split.
  - apply (proj2 (enable_vmx_operation_true_iff (arch := sdm) core0)).
    repeat split; vm_compute; reflexivity.
  - destruct (value (enable_vmx_operation (arch := sdm) core_locked_off)) eqn:E;
      [| reflexivity].
    apply (proj1 (enable_vmx_operation_true_iff (arch := sdm) core_locked_off)) in E.
    destruct E as (_ & _ & E). vm_compute in E. discriminate E.
Defined.

Lemma enable_vmx_operation_critical_section_witness :
  events (enable_vmx_operation (arch := sdm) core0) =
    [ev_disable; ev_writecr0 0x80050033; ev_writecr4 0x372678; ev_enable].
Proof.
  destruct (enable_vmx_operation_critical_section (arch := sdm) core0 eq_refl) as (E & _).
  rewrite E. vm_compute. reflexivity.
Defined.



Lemma set_vmcs_pointer_clear_then_load_witness :
  In (ev_vmclear 0x12341000 true)
     (events (set_vmcs_pointer (arch := sdm) (ext := lab true true true true) core0)) /\
  In (ev_vmptrld 0x12341000 true)
     (events (set_vmcs_pointer (arch := sdm) (ext := lab true true true true) core0)).
Proof.
  exact (proj1 (proj1 (set_vmcs_pointer_clear_then_load (arch := sdm)
                         (ext := lab true true true true) core0)) eq_refl).
Defined.

Lemma host_rsp_within_stack_witness :
  vmcs_fields (final (write_vmcs_host_fields (arch := sdm)
                        (ext := lab true true true true) core0)) VMCS_HOST_RSP
  = 0xFFFF800012348FF8.
Proof.
  destruct (host_rsp_within_stack (arch := sdm) (ext := lab true true true true) core0)
    as (_ & _ & Haligned).
  - vm_compute. discriminate.
  - vm_compute. reflexivity.
  - rewrite Haligned; vm_compute; reflexivity.
Defined.

Lemma virtualize_gate_closed_witness :
  value (virtualize (arch := sdm) (ext := lab true true true true) core_locked_off) = false /\
  final (virtualize (arch := sdm) (ext := lab true true true true) core_locked_off)
    = core_locked_off /\
  issued (virtualize (arch := sdm) (ext := lab true true true true) core_locked_off) = [].
Proof.
  apply (virtualize_gate_closed (arch := sdm) (ext := lab true true true true)
           core_locked_off).
  right. right. vm_compute. reflexivity.
Defined.

Lemma virtualize_vmxon_fails_witness :
  vmx_instructions (virtualize (arch := sdm) (ext := lab false true true true) core0)
    = [ev_vmxon 0x12340000 false] /\
  cr4 (final (virtualize (arch := sdm) (ext := lab false true true true) core0))
    = 0x372678.
Proof.
  destruct (virtualize_vmxon_fails (arch := sdm) (ext := lab false true true true)
              core0 eq_refl eq_refl) as (_ & Hi & _ & _ & H4 & _).
  split; [exact Hi |]. rewrite H4. vm_compute. reflexivity.
Defined.

Lemma virtualize_success_sequence_witness :
  vmx_instructions (virtualize (arch := sdm) (ext := lab true true true true) core0) =
    [ev_vmxon 0x12340000 true; ev_invept 2; ev_vmclear 0x12341000 true;
     ev_vmptrld 0x12341000 true; ev_vm_launch true].
Proof.
  exact (virtualize_success_sequence (arch := sdm) (ext := lab true true true true)
           core0 eq_refl).
Defined.

Lemma virtualize_writes_after_vmptrld_witness :
  exists p,
    In (ev_vmptrld p true)
       (firstn 14 (events (virtualize (arch := sdm) (ext := lab true true true true)
                             core0))).
Proof.
  apply (virtualize_writes_after_vmptrld (arch := sdm) (ext := lab true true true true)
           core0
           (firstn 14 (events (virtualize (arch := sdm) (ext := lab true true true true)
                                 core0)))
           (skipn 15 (events (virtualize (arch := sdm) (ext := lab true true true true)
                                core0)))
           VMCS_CTRL_PIN_BASED_VM_EXECUTION_CONTROLS 40).
  vm_compute. reflexivity.
Defined.

Lemma handle_vm_exit_runs_handler_witness :
  value (handle_vm_exit (arch := sdm) (ext := lab true true true true)
           7 (core0_exited 10 0)) = 0x756E6547.
Proof.
  destruct (handle_vm_exit_runs_handler (arch := sdm) (ext := lab true true true true)
              7 (core0_exited 10 0) 10 emulate_cpuid sdm_exit_reasons_distinct)
    as (Hv & _).
  - right. left. reflexivity.
  - reflexivity.
  - rewrite Hv. reflexivity.
Defined.

Lemma handle_host_interrupt_nmi_frame_witness :
  events (handle_host_interrupt (arch := sdm) (ext := lab true true true true)
            2 (core0_exited 0 0x84006172)) =
    [ev_vmwrite VMCS_CTRL_PROCESSOR_BASED_VM_EXECUTION_CONTROLS 0x84406172].
Proof.
  destruct (handle_host_interrupt_nmi_frame (arch := sdm) (ext := lab true true true true)
              2 (core0_exited 0 0x84006172) eq_refl) as (H & _).
  unfold events. rewrite H. vm_compute. reflexivity.
Defined.
